(** * removebg: a shallow embedding of [removebg/removebg.py]

    The client class [RemoveBg] validates its options, builds one form
    request, posts it once through the session it holds, and either returns
    the bytes, writes them to a file, or logs an error.

    Python values are modelled as the code uses them:
    - the five enumerated options, [roi], [scale], [position] are [str];
    - [shadow], [semitransparency] are only tested for truth, so they are
      arbitrary scalar values ([value]);
    - [crop], [bg], [bg_type], [new_file_name] are [Optional[str]];
    - a dict is a [gmap] from its string keys;
    - raising is the left summand of the result, and the state that the
      call has built up so far survives a raise (logs, open handles,
      recorded posts).

    What lies outside the module is a parameter of the model: the session
    decides the outcome of a post from the request, and the host decides
    which files open and how a write ends. Closing a handle marks it closed
    and does not fail. [str.lower] is described on strings of ASCII
    characters only; what is stated of a lower-cased title is stated for
    ASCII titles. *)

From Stdlib Require Import ZArith String Ascii List Bool Lia.
From stdpp Require Import base option list gmap strings fin_maps.

Local Open Scope Z_scope.
Local Open Scope string_scope.
Local Open Scope list_scope.

(** ** Python values *)

Inductive value :=
| VNone
| VBool (b : bool)
| VInt (z : Z)
| VStr (s : string).

(** Truth value testing of [if x] / [x and y]. *)
Definition truthy (v : value) : bool :=
  match v with
  | VNone => false
  | VBool b => b
  | VInt z => negb (z =? 0)%Z
  | VStr s => negb (bool_decide (s = ""))
  end.

(** Truth of an [Optional[str]]: [None] and the empty string are false. *)
Definition truthy_str (o : option string) : bool :=
  match o with
  | None => false
  | Some s => negb (bool_decide (s = ""))
  end.

(** An [Optional[str]] as it is stored in a dict. *)
Definition of_opt (o : option string) : value :=
  match o with
  | None => VNone
  | Some s => VStr s
  end.

(** [str.lower] on a string of ASCII characters: the letters A-Z become
    a-z and every other character is kept. On other strings Python lowers
    the cased letters of all of Unicode, which this function does not
    describe. *)
Definition lower_ascii (c : ascii) : ascii :=
  let n := nat_of_ascii c in
  if ((65 <=? n) && (n <=? 90))%nat then ascii_of_nat (n + 32) else c.

Fixpoint lower (s : string) : string :=
  match s with
  | EmptyString => EmptyString
  | String c s' => String (lower_ascii c) (lower s')
  end.

(** ** Exceptions *)

Inductive exn :=
| ValueError (msg : string)
| OSError (path : string)
| RequestException (msg : string)
| HTTPError (status : Z)
| AttributeError (msg : string)
| KeyError (msg : string)
| IndexError (msg : string)
| TypeError (msg : string).

Definition is_ValueError (e : exn) : bool :=
  match e with
  | ValueError _ => true
  | _ => false
  end.

(** ** A state and exception monad

    [M S A] is a computation over a state [S] that returns an [A] or raises;
    the state is kept in both cases. *)

Definition result (A : Type) : Type := (exn + A)%type.

Definition M (S A : Type) : Type := S -> result A * S.

Definition ret {S A} (a : A) : M S A := fun s => (inr a, s).

Definition raise {S A} (e : exn) : M S A := fun s => (inl e, s).

Definition bind {S A B} (m : M S A) (k : A -> M S B) : M S B :=
  fun s =>
    match m s with
    | (inr a, s1) => k a s1
    | (inl e, s1) => (inl e, s1)
    end.

Definition gets {S A} (f : S -> A) : M S A := fun s => (inr (f s), s).

Definition modify {S} (f : S -> S) : M S unit := fun s => (inr tt, f s).

(** [try: body finally: fin]. The clause [fin] runs on every exit of [body];
    an exception of [fin] replaces the outcome of [body]. *)
Definition try_finally {S A} (body : M S A) (fin : M S unit) : M S A :=
  fun s =>
    let '(r, s1) := body s in
    match fin s1 with
    | (inr _, s2) => (r, s2)
    | (inl e, s2) => (inl e, s2)
    end.

(** [try: body except C as ex: handler], where [catches] decides the
    classes [C]. *)
Definition try_except {S A} (body : M S A) (catches : exn -> bool)
    (handler : exn -> M S A) : M S A :=
  fun s =>
    match body s with
    | (inl e, s1) => if catches e then handler e s1 else (inl e, s1)
    | ok => ok
    end.

(** [except Exception] catches every class modelled here. *)
Definition Exception (e : exn) : bool := true.

Declare Scope py_scope.
Delimit Scope py_scope with py.
Notation "x <- m ;; k" := (bind m (fun x => k))
  (at level 100, m at next level, right associativity) : py_scope.
Notation "m ;; k" := (bind m (fun _ => k))
  (at level 100, right associativity) : py_scope.
Local Open Scope py_scope.

(** ** Validation: [_check_arguments] *)

Definition _check_arguments {S} (size type type_level format channels : string)
    : M S unit :=
  if negb (bool_decide (size ∈
       ["auto"; "preview"; "small"; "regular"; "medium"; "hd";
        "full"; "4k"]))
  then raise (ValueError "size argument wrong")
  else if negb (bool_decide (type ∈
       ["auto"; "person"; "product"; "animal"; "car";
        "car_interior"; "car_part"; "transportation"; "graphics";
        "other"]))
  then raise (ValueError "type argument wrong")
  else if negb (bool_decide (type_level ∈ ["none"; "latest"; "1"; "2"]))
  then raise (ValueError "type_level argument wrong")
  else if negb (bool_decide (format ∈ ["jpg"; "zip"; "png"; "auto"]))
  then raise (ValueError "format argument wrong")
  else if negb (bool_decide (channels ∈ ["rgba"; "alpha"]))
  then raise (ValueError "channels argument wrong")
  else ret tt.

(** ** Request assembly: [_build_common_data] *)

Definition py_bool_str (b : bool) : value :=
  if b then VStr "true" else VStr "false".

Definition _build_common_data (size type type_level format roi : string)
    (crop : option string) (scale position channels : string)
    (shadow semitransparency : value) : gmap string value :=
  <["semitransparency" := py_bool_str (truthy semitransparency)]>
  (<["add_shadow" := py_bool_str (truthy shadow)]>
  (<["channels" := VStr channels]>
  (<["position" := VStr position]>
  (<["scale" := VStr scale]>
  (<["crop_margin" := of_opt crop]>
  (<["crop" := py_bool_str (truthy_str crop)]>
  (<["roi" := VStr roi]>
  (<["format" := VStr format]>
  (<["type_level" := VStr type_level]>
  (<["type" := VStr type]>
  (<["size" := VStr size]> ∅))))))))))).

(** ** Responses and requests of the HTTP session *)

(** A parsed JSON document (numbers are kept to the integers). *)
#[warnings="-register-all"] Inductive json :=
| JNull
| JBool (b : bool)
| JNum (z : Z)
| JStr (s : string)
| JArr (l : list json)
| JObj (kv : list (string * json)).

(** What the code reads of a [requests.Response]: [status_code], [content],
    and [json()], which is [None] here when it raises [ValueError]. *)
Record Response := {
  status_code : Z;
  content : list Byte.byte;
  json_body : option json
}.

(** [requests.codes.ok] *)
Definition codes_ok : Z := 200.

Definition API_ENDPOINT : string := "https://api.remove.bg/v1.0/removebg".

(** The arguments of one [session.post]. An uploaded file is the index of its
    handle; [files=None] is [None]. *)
Record Request := {
  req_url : string;
  req_files : option (gmap string nat);
  req_data : gmap string value;
  req_headers : gmap string string;
  req_timeout : Z
}.

(** A post either raises in the transport or returns a response. *)
Inductive post_outcome :=
| Raises (msg : string)
| Responds (r : Response).

(** The client object: [__api_key], [_timeout] (whole seconds) and
    [_session], of which only [post] is used. *)
Record RemoveBg := {
  __api_key : string;
  _timeout : Z;
  _session : Request -> post_outcome
}.

Definition DEFAULT_TIMEOUT : Z := 30.

(** [RemoveBg(api_key, error_log_file, timeout, session)]. The logging
    handlers that the constructor installs are not part of the model: every
    [_logger.error] call is kept in the log of the world. *)
Definition __init__ (api_key : string) (timeout : option Z)
    (session : Request -> post_outcome) : RemoveBg :=
  {| __api_key := api_key;
     _timeout := default DEFAULT_TIMEOUT timeout;
     _session := session |}.

(** ** The world a call acts on *)

(** The files that have been written, the table of the handles opened so
    far, the records of [_logger.error], and the requests handed to
    [session.post]. *)

Inductive mode := RB | WB.

Record handle := {
  h_path : string;
  h_mode : mode;
  h_closed : bool
}.

(** One call of [_logger.error(fmt, *args)]. *)
Inductive log_arg :=
| AStr (s : string)
| AInt (z : Z)
| AExn (e : exn).

Record log_record := {
  log_fmt : string;
  log_args : list log_arg
}.

Record world := {
  fs : gmap string (list Byte.byte);
  handles : list handle;
  log : list log_record;
  posts : list Request
}.

Definition set_fs
    (f : gmap string (list Byte.byte) -> gmap string (list Byte.byte))
    (w : world) : world :=
  {| fs := f (fs w); handles := handles w; log := log w; posts := posts w |}.

Definition set_handles (f : list handle -> list handle) (w : world) : world :=
  {| fs := fs w; handles := f (handles w); log := log w; posts := posts w |}.

Definition set_log (f : list log_record -> list log_record) (w : world)
    : world :=
  {| fs := fs w; handles := handles w; log := f (log w); posts := posts w |}.

Definition set_posts (f : list Request -> list Request) (w : world) : world :=
  {| fs := fs w; handles := handles w; log := log w; posts := f (posts w) |}.

(** What the host decides: whether [open(path, 'rb')] succeeds, and how
    writing a file ends: it is written in full, it cannot be opened, or the
    write stops after some bytes. *)
Inductive write_outcome :=
| WriteOk
| OpenFails
| WriteFails (written : nat).

Record host := {
  readable : string -> bool;
  disk : string -> write_outcome
}.

Definition mark_closed (h : handle) : handle :=
  {| h_path := h_path h; h_mode := h_mode h; h_closed := true |}.

Definition new_handle (path : string) (m : mode) : handle :=
  {| h_path := path; h_mode := m; h_closed := false |}.

Section Host.

Variable os : host.

(** [open(path, 'rb')] *)
Definition open_rb (path : string) : M world nat :=
  fun w =>
    if readable os path
    then (inr (length (handles w)),
          set_handles (fun hs => hs ++ [new_handle path RB]) w)
    else (inl (OSError path), w).

(** [open(path, 'wb')]: creates or truncates the file. *)
Definition open_wb (path : string) : M world nat :=
  fun w =>
    match disk os path with
    | OpenFails => (inl (OSError path), w)
    | _ => (inr (length (handles w)),
            set_fs (insert path [])
              (set_handles (fun hs => hs ++ [new_handle path WB]) w))
    end.

(** [f.write(bytes)] *)
Definition write (f : nat) (bytes : list Byte.byte) : M world unit :=
  fun w =>
    match handles w !! f with
    | Some h =>
        if h_closed h
        then (inl (ValueError "write to closed file"), w)
        else match disk os (h_path h) with
             | WriteFails n =>
                 (inl (OSError (h_path h)),
                  set_fs (insert (h_path h) (take n bytes)) w)
             | _ => (inr tt, set_fs (insert (h_path h) bytes) w)
             end
    | None => (inl (ValueError "write to closed file"), w)
    end.

(** [f.close()] *)
Definition close (f : nat) : M world unit :=
  modify (set_handles (alter mark_closed f)).

(** [_logger.error(fmt, *args)] *)
Definition logger_error (fmt : string) (args : list log_arg) : M world unit :=
  modify (set_log (fun l => l ++ [{| log_fmt := fmt; log_args := args |}])).

(** ** Reading the error payload *)

(** A parsed object has distinct keys; [d[k]] and [d.get(k)] agree on the
    keys that are present. *)
Fixpoint dict_lookup (k : string) (kv : list (string * json)) : option json :=
  match kv with
  | [] => None
  | (k', v) :: kv' =>
      if bool_decide (k' = k) then Some v else dict_lookup k kv'
  end.

Definition isinstance_dict (j : json) : bool :=
  match j with
  | JObj _ => true
  | _ => false
  end.

(** [payload.get(k)] on a dict *)
Definition dict_get (k : string) (j : json) : json :=
  match j with
  | JObj kv => default JNull (dict_lookup k kv)
  | _ => JNull
  end.

Definition json_truthy (j : json) : bool :=
  match j with
  | JNull => false
  | JBool b => b
  | JNum z => negb (z =? 0)%Z
  | JStr s => negb (bool_decide (s = ""))
  | JArr l => negb (Nat.eqb (length l) 0)
  | JObj kv => negb (Nat.eqb (length kv) 0)
  end.

(** [x[0]] *)
Definition subscript0 {S} (j : json) : M S json :=
  match j with
  | JArr (x :: _) => ret x
  | JArr [] => raise (IndexError "list index out of range")
  | JStr (String c _) => ret (JStr (String c EmptyString))
  | JStr EmptyString => raise (IndexError "string index out of range")
  | JObj _ => raise (KeyError "0")
  | _ => raise (TypeError "object is not subscriptable")
  end.

(** [x.get(k, dflt)] *)
Definition method_get {S} (j : json) (k : string) (dflt : json) : M S json :=
  match j with
  | JObj kv => ret (default dflt (dict_lookup k kv))
  | _ => raise (AttributeError "get")
  end.

(** [x.lower()] *)
Definition method_lower {S} (j : json) : M S string :=
  match j with
  | JStr s => ret (lower s)
  | _ => raise (AttributeError "lower")
  end.

(** [response.json()] *)
Definition response_json {S} (response : Response) : M S json :=
  match json_body response with
  | Some payload => ret payload
  | None => raise (ValueError "Expecting value")
  end.

(** ** Response handling: [_output_file] *)

(** [with opn as f: body]; [cls f] is [f.close()] in the state at hand. *)
Definition with_open {S A} (opn : M S nat) (cls : nat -> M S unit)
    (body : nat -> M S A) : M S A :=
  f <- opn ;; try_finally (body f) (cls f).

Definition _output_file (response : Response) (new_file_name : string)
    : M world unit :=
  if (status_code response =? codes_ok)%Z
  then
    try_except
      (with_open (open_wb new_file_name) close
         (fun removed_bg_file => write removed_bg_file (content response)))
      Exception
      (fun ex =>
         logger_error "Unable to write file %s: %s"
           [AStr new_file_name; AExn ex])
  else
    let error_reason := "unknown error" in
    error_reason <-
      try_except
        (payload <- response_json response ;;
         if isinstance_dict payload && json_truthy (dict_get "errors" payload)
         then
           first <- subscript0 (dict_get "errors" payload) ;;
           title <- method_get first "title" (JStr error_reason) ;;
           method_lower title
         else ret error_reason)
        is_ValueError
        (fun _ => ret error_reason) ;;
    logger_error "Unable to save %s due to %s (status %s)"
      [AStr new_file_name; AStr error_reason; AInt (status_code response)].

(** ** The three entry operations *)

(** [requests.Response.raise_for_status]: an [HTTPError] for the client and
    server error statuses, nothing otherwise. *)
Definition raise_for_status {S} (response : Response) : M S unit :=
  if ((400 <=? status_code response) && (status_code response <? 600))%Z
  then raise (HTTPError (status_code response))
  else ret tt.

(** [self._session.post(...)]; every call is recorded. *)
Definition post (self : RemoveBg) (r : Request) : M world Response :=
  fun w =>
    let w' := set_posts (fun l => l ++ [r]) w in
    match _session self r with
    | Raises msg => (inl (RequestException msg), w')
    | Responds response => (inr response, w')
    end.

(** The locals that are set before the [try] and read in its [finally]. *)
Record frame := {
  files : gmap string nat;
  bg_file_handle : option nat
}.

Definition lift {A} (m : M world A) : M (frame * world) A :=
  fun s => let '(r, w) := m (snd s) in (r, (fst s, w)).

(** [files[k] = f] *)
Definition set_file (k : string) (f : nat) : M (frame * world) unit :=
  modify (fun s =>
    ({| files := <[k := f]> (files (fst s));
        bg_file_handle := bg_file_handle (fst s) |}, snd s)).

(** [bg_file_handle = f] *)
Definition set_bg_file_handle (f : nat) : M (frame * world) unit :=
  modify (fun s =>
    ({| files := files (fst s); bg_file_handle := Some f |}, snd s)).

(** [files = {}; bg_file_handle = None], then the body; the locals are
    dropped on exit. *)
Definition in_frame {A} (m : M (frame * world) A) : M world A :=
  fun w =>
    let '(r, s) := m ({| files := ∅; bg_file_handle := None |}, w) in
    (r, snd s).

Definition str_of (o : option string) : string := default "" o.

(** The background branch, written out alike in all three operations
    (lines 155-161, 230-236, 305-311); returns the updated [data]. *)
Definition attach_background (bg_type bg : option string)
    (data : gmap string value) : M (frame * world) (gmap string value) :=
  if bool_decide (bg_type = Some "path") && truthy_str bg
  then
    f <- lift (open_rb (str_of bg)) ;;
    set_bg_file_handle f ;;
    set_file "bg_image_file" f ;;
    ret data
  else if bool_decide (bg_type = Some "color") && truthy_str bg
  then ret (<["bg_color" := of_opt bg]> data)
  else if bool_decide (bg_type = Some "url") && truthy_str bg
  then ret (<["bg_image_url" := of_opt bg]> data)
  else ret data.

(** What follows the post, alike in all three operations (lines 169-176,
    245-252, 320-327). *)
Definition handle_response (response : Response)
    (new_file_name : option string) (return_bytes : bool)
    : M world (option (list Byte.byte)) :=
  raise_for_status response ;;
  if return_bytes
  then
    let content := content response in
    (if truthy_str new_file_name
     then _output_file response (str_of new_file_name)
     else ret tt) ;;
    ret (Some content)
  else
    (if truthy_str new_file_name
     then _output_file response (str_of new_file_name)
     else ret tt) ;;
    ret None.

(** The [finally] clause, alike in all three operations (lines 177-182,
    253-258, 328-333). *)
Definition close_background : M (frame * world) unit :=
  h <- gets (fun s => bg_file_handle (fst s)) ;;
  match h with
  | Some f => try_except (lift (close f)) Exception (fun _ => ret tt)
  | None => ret tt
  end.

Definition remove_background_from_img_file (self : RemoveBg)
    (img_file_path size type type_level format roi : string)
    (crop : option string) (scale position channels : string)
    (shadow semitransparency : value)
    (bg bg_type new_file_name : option string) (return_bytes : bool)
    : M world (option (list Byte.byte)) :=
  _check_arguments size type type_level format channels ;;
  in_frame
    (try_finally
       (with_open (lift (open_rb img_file_path)) (fun f => lift (close f))
          (fun img_file =>
             set_file "image_file" img_file ;;
             data <- attach_background bg_type bg
                       (_build_common_data size type type_level format roi
                          crop scale position channels shadow
                          semitransparency) ;;
             files <- gets (fun s => files (fst s)) ;;
             response <- lift (post self
               {| req_url := API_ENDPOINT;
                  req_files := Some files;
                  req_data := data;
                  req_headers := {["X-Api-Key" := __api_key self]};
                  req_timeout := _timeout self |}) ;;
             lift (handle_response response new_file_name return_bytes)))
       close_background).

Definition remove_background_from_img_url (self : RemoveBg)
    (img_url size type type_level format roi : string)
    (crop : option string) (scale position channels : string)
    (shadow semitransparency : value)
    (bg bg_type new_file_name : option string) (return_bytes : bool)
    : M world (option (list Byte.byte)) :=
  _check_arguments size type type_level format channels ;;
  (if negb return_bytes && bool_decide (new_file_name = None)
   then raise
          (ValueError "Either provide new_file_name or set return_bytes=True")
   else ret tt) ;;
  in_frame
    (try_finally
       (data <- attach_background bg_type bg
                  (<["image_url" := VStr img_url]>
                     (_build_common_data size type type_level format roi
                        crop scale position channels shadow
                        semitransparency)) ;;
        files <- gets (fun s => files (fst s)) ;;
        response <- lift (post self
          {| req_url := API_ENDPOINT;
             req_files := if bool_decide (files = ∅) then None else Some files;
             req_data := data;
             req_headers := {["X-Api-Key" := __api_key self]};
             req_timeout := _timeout self |}) ;;
        lift (handle_response response new_file_name return_bytes))
       close_background).

Definition remove_background_from_base64_img (self : RemoveBg)
    (base64_img size type type_level format roi : string)
    (crop : option string) (scale position channels : string)
    (shadow semitransparency : value)
    (bg bg_type new_file_name : option string) (return_bytes : bool)
    : M world (option (list Byte.byte)) :=
  _check_arguments size type type_level format channels ;;
  (if negb return_bytes && bool_decide (new_file_name = None)
   then raise
          (ValueError "Either provide new_file_name or set return_bytes=True")
   else ret tt) ;;
  in_frame
    (try_finally
       (data <- attach_background bg_type bg
                  (<["image_file_b64" := VStr base64_img]>
                     (_build_common_data size type type_level format roi
                        crop scale position channels shadow
                        semitransparency)) ;;
        files <- gets (fun s => files (fst s)) ;;
        response <- lift (post self
          {| req_url := API_ENDPOINT;
             req_files := if bool_decide (files = ∅) then None else Some files;
             req_data := data;
             req_headers := {["X-Api-Key" := __api_key self]};
             req_timeout := _timeout self |}) ;;
        lift (handle_response response new_file_name return_bytes))
       close_background).

End Host.

(** ** Calls

    The keyword arguments of an entry operation, with the defaults of the
    signatures, and the three operations under one name. *)

Record options := {
  o_size : string;
  o_type : string;
  o_type_level : string;
  o_format : string;
  o_roi : string;
  o_crop : option string;
  o_scale : string;
  o_position : string;
  o_channels : string;
  o_shadow : value;
  o_semitransparency : value;
  o_bg : option string;
  o_bg_type : option string;
  o_new_file_name : option string;
  o_return_bytes : bool
}.

Definition defaults : options := {|
  o_size := "regular";
  o_type := "auto";
  o_type_level := "none";
  o_format := "auto";
  o_roi := "0 0 100% 100%";
  o_crop := None;
  o_scale := "original";
  o_position := "original";
  o_channels := "rgba";
  o_shadow := VBool false;
  o_semitransparency := VBool true;
  o_bg := None;
  o_bg_type := None;
  o_new_file_name := Some "no-bg.png";
  o_return_bytes := false
|}.

Inductive entry := ImgFile | ImgUrl | Base64Img.

Definition call (os : host) (e : entry) (self : RemoveBg) (img : string)
    (o : options) : M world (option (list Byte.byte)) :=
  let f :=
    match e with
    | ImgFile => remove_background_from_img_file
    | ImgUrl => remove_background_from_img_url
    | Base64Img => remove_background_from_base64_img
    end in
  f os self img (o_size o) (o_type o) (o_type_level o) (o_format o) (o_roi o)
    (o_crop o) (o_scale o) (o_position o) (o_channels o) (o_shadow o)
    (o_semitransparency o) (o_bg o) (o_bg_type o) (o_new_file_name o)
    (o_return_bytes o).

(** ** Vocabulary of the properties *)

(** The five enumerations. *)
Definition valid_options (size type type_level format channels : string)
    : Prop :=
  size ∈ ["auto"; "preview"; "small"; "regular"; "medium"; "hd"; "full"; "4k"]
  ∧ type ∈ ["auto"; "person"; "product"; "animal"; "car"; "car_interior";
            "car_part"; "transportation"; "graphics"; "other"]
  ∧ type_level ∈ ["none"; "latest"; "1"; "2"]
  ∧ format ∈ ["jpg"; "zip"; "png"; "auto"]
  ∧ channels ∈ ["rgba"; "alpha"].

Definition valid (o : options) : Prop :=
  valid_options (o_size o) (o_type o) (o_type_level o) (o_format o)
    (o_channels o).

(** At least one way to consume the result is asked for. *)
Definition consumable (o : options) : Prop :=
  o_return_bytes o = true \/ o_new_file_name o <> None.

(** The background a call specifies: a kind among path, color and url
    together with a non-empty value, or none. *)
Inductive background :=
| BgPath (p : string)
| BgColor (c : string)
| BgUrl (u : string)
| BgNone.

Definition background_of (bg_type bg : option string) : background :=
  match bg_type, bg with
  | Some t, Some b =>
      if bool_decide (b = "") then BgNone
      else if bool_decide (t = "path") then BgPath b
      else if bool_decide (t = "color") then BgColor b
      else if bool_decide (t = "url") then BgUrl b
      else BgNone
  | _, _ => BgNone
  end.

(** The files a call has to open before it can post. *)
Definition inputs_readable (os : host) (e : entry) (img : string)
    (o : options) : Prop :=
  (e = ImgFile -> readable os img = true)
  /\ (forall p, background_of (o_bg_type o) (o_bg o) = BgPath p ->
                readable os p = true).

(** Whether a request carries the field [k], as a form field or as a file
    part. *)
Definition has_field (r : Request) (k : string) : bool :=
  bool_decide (is_Some (req_data r !! k))
  || match req_files r with
     | Some fl => bool_decide (is_Some (fl !! k))
     | None => false
     end.

(** The background fields of a request. *)
Definition bg_fields (r : Request) : list string :=
  List.filter (has_field r) ["bg_image_file"; "bg_color"; "bg_image_url"].

(** The field that goes with a background. *)
Definition field_of (b : background) : list string :=
  match b with
  | BgPath _ => ["bg_image_file"]
  | BgColor _ => ["bg_color"]
  | BgUrl _ => ["bg_image_url"]
  | BgNone => []
  end.

(** The same options without a background. *)
Definition without_background (o : options) : options := {|
  o_size := o_size o;
  o_type := o_type o;
  o_type_level := o_type_level o;
  o_format := o_format o;
  o_roi := o_roi o;
  o_crop := o_crop o;
  o_scale := o_scale o;
  o_position := o_position o;
  o_channels := o_channels o;
  o_shadow := o_shadow o;
  o_semitransparency := o_semitransparency o;
  o_bg := None;
  o_bg_type := None;
  o_new_file_name := o_new_file_name o;
  o_return_bytes := o_return_bytes o
|}.

(** The form fields of a call before the background is added. *)
Definition form_data (e : entry) (img : string) (o : options)
    : gmap string value :=
  let d := _build_common_data (o_size o) (o_type o) (o_type_level o)
             (o_format o) (o_roi o) (o_crop o) (o_scale o) (o_position o)
             (o_channels o) (o_shadow o) (o_semitransparency o) in
  match e with
  | ImgFile => d
  | ImgUrl => <["image_url" := VStr img]> d
  | Base64Img => <["image_file_b64" := VStr img]> d
  end.

Definition mk_request (self : RemoveBg) (fl : option (gmap string nat))
    (d : gmap string value) : Request :=
  {| req_url := API_ENDPOINT; req_files := fl; req_data := d;
     req_headers := {["X-Api-Key" := __api_key self]};
     req_timeout := _timeout self |}.

(** The post and what follows it, as one computation on the world. *)
Definition send_and_handle (os : host) (self : RemoveBg) (r : Request)
    (new_file_name : option string) (return_bytes : bool)
    : M world (option (list Byte.byte)) :=
  response <- post self r ;;
  handle_response os response new_file_name return_bytes.

(** [f.close()] applied to the outcome of a computation. *)
Definition closing {A} (f : nat) (rw : result A * world) : result A * world :=
  (fst rw, set_handles (alter mark_closed f) (snd rw)).

(** A handle on which [close] has been called. *)
Definition closed (h : handle) : Prop := h_closed h = true.

(** The log records of [_output_file]. *)
Definition save_error (name reason : string) (status : Z) : log_record :=
  {| log_fmt := "Unable to save %s due to %s (status %s)";
     log_args := [AStr name; AStr reason; AInt status] |}.

Definition write_error (name : string) (ex : exn) : log_record :=
  {| log_fmt := "Unable to write file %s: %s";
     log_args := [AStr name; AExn ex] |}.

(** The reason that an error body of the documented shape
    [{"errors": [{"title": ...}, ...]}] carries, and the generic one of a
    body that is not JSON, is not an object, or has no errors. *)
Inductive reads_reason : Response -> string -> Prop :=
| reason_title r kv e rest t :
    json_body r = Some (JObj kv) ->
    dict_lookup "errors" kv = Some (JArr (JObj e :: rest)) ->
    dict_lookup "title" e = Some (JStr t) ->
    reads_reason r (lower t)
| reason_not_json r :
    json_body r = None ->
    reads_reason r "unknown error"
| reason_not_object r j :
    json_body r = Some j ->
    isinstance_dict j = false ->
    reads_reason r "unknown error"
| reason_no_errors r kv :
    json_body r = Some (JObj kv) ->
    json_truthy (default JNull (dict_lookup "errors" kv)) = false ->
    reads_reason r "unknown error"
| reason_no_title r kv e rest :
    json_body r = Some (JObj kv) ->
    dict_lookup "errors" kv = Some (JArr (JObj e :: rest)) ->
    dict_lookup "title" e = None ->
    reads_reason r "unknown error".

(** A step that posts nothing and leaves no handle open. *)
Definition grows (w w' : world) : Prop :=
  posts w' = posts w
  /\ exists new, handles w' = handles w ++ new /\ Forall closed new.

(** The world once [r] has been posted. *)
Definition posted (r : Request) (w : world) : world :=
  set_posts (fun l => l ++ [r]) w.

(** The statuses that [raise_for_status] turns into an [HTTPError]. *)
Definition is_error_status (response : Response) : bool :=
  ((400 <=? status_code response) && (status_code response <? 600))%Z.

(** What a call returns when it returns. *)
Definition returned (response : Response) (return_bytes : bool)
    : option (list Byte.byte) :=
  if return_bytes then Some (content response) else None.

(** The world once [path] has been opened for reading. *)
Definition opened (path : string) (w : world) : world :=
  set_handles (fun hs => hs ++ [new_handle path RB]) w.

(** The form fields once the background [b] is added. *)
Definition add_background (b : background) (d : gmap string value)
    : gmap string value :=
  match b with
  | BgColor c => <["bg_color" := VStr c]> d
  | BgUrl u => <["bg_image_url" := VStr u]> d
  | _ => d
  end.

(** The request a call posts, given the number [n] of handles before it:
    the image file has handle [n], and a background file the next one. *)
Definition files_of (e : entry) (b : background) (n : nat)
    : option (gmap string nat) :=
  match e, b with
  | ImgFile, BgPath _ =>
      Some (<["bg_image_file" := S n]> (<["image_file" := n]> ∅))
  | ImgFile, _ => Some (<["image_file" := n]> ∅)
  | _, BgPath _ => Some (<["bg_image_file" := n]> ∅)
  | _, _ => None
  end.

Definition request_of (e : entry) (self : RemoveBg) (img : string)
    (o : options) (w : world) : Request :=
  let b := background_of (o_bg_type o) (o_bg o) in
  mk_request self (files_of e b (length (handles w)))
    (add_background b (form_data e img o)).

(** The world once the inputs of a call are open, and its end once they
    are closed again. *)
Definition open_inputs (e : entry) (img : string) (b : background)
    (w : world) : world :=
  let w1 := match e with ImgFile => opened img w | _ => w end in
  match b with
  | BgPath p => opened p w1
  | _ => w1
  end.

Definition close_inputs (e : entry) (b : background) (n : nat) (x : world)
    : world :=
  let x1 :=
    match e with
    | ImgFile => set_handles (alter mark_closed n) x
    | _ => x
    end in
  match b with
  | BgPath _ =>
      set_handles
        (alter mark_closed (match e with ImgFile => S n | _ => n end)) x1
  | _ => x1
  end.

(** A background specification that names none of the three kinds, or has
    no value. *)
Definition unspecified (bg_type bg : option string) : Prop :=
  (bg_type <> Some "path" /\ bg_type <> Some "url" /\ bg_type <> Some "color")
  \/ bg = None \/ bg = Some "".

(** ** Sample inputs *)

(** A host on which every file opens and every write goes through. *)
Definition open_host : host :=
  {| readable := fun _ => true; disk := fun _ => WriteOk |}.

(** A host with a read-only disk. *)
Definition read_only_host : host :=
  {| readable := fun _ => true; disk := fun _ => OpenFails |}.

Definition empty_world : world :=
  {| fs := ∅; handles := []; log := []; posts := [] |}.

Definition sample_content : list Byte.byte :=
  [Byte.x89; Byte.x50; Byte.x4e; Byte.x47].

(** A response with a body that is not JSON. *)
Definition binary_response (status : Z) : Response :=
  {| status_code := status; content := sample_content; json_body := None |}.

(** A response whose body is the JSON document [j]. *)
Definition json_response (status : Z) (j : json) : Response :=
  {| status_code := status; content := []; json_body := Some j |}.

(** A client whose session answers every post with [response]. *)
Definition client_answering (response : Response) : RemoveBg :=
  __init__ "secret" None (fun _ => Responds response).

(** A client whose session fails in the transport. *)
Definition client_offline : RemoveBg :=
  __init__ "secret" (Some 5) (fun _ => Raises "timed out").

(** A step that posts nothing, logs nothing, writes nothing and leaves no
    handle open. *)
Definition quiet (w w' : world) : Prop :=
  posts w' = posts w /\ log w' = log w /\ fs w' = fs w
  /\ exists new, handles w' = handles w ++ new /\ Forall closed new.

(** [defaults] with another size. *)
Definition with_size (s : string) (o : options) : options := {|
  o_size := s;
  o_type := o_type o;
  o_type_level := o_type_level o;
  o_format := o_format o;
  o_roi := o_roi o;
  o_crop := o_crop o;
  o_scale := o_scale o;
  o_position := o_position o;
  o_channels := o_channels o;
  o_shadow := o_shadow o;
  o_semitransparency := o_semitransparency o;
  o_bg := o_bg o;
  o_bg_type := o_bg_type o;
  o_new_file_name := o_new_file_name o;
  o_return_bytes := o_return_bytes o
|}.

(** Options with another way to consume the result. *)
Definition with_output (new_file_name : option string) (return_bytes : bool)
    (o : options) : options := {|
  o_size := o_size o;
  o_type := o_type o;
  o_type_level := o_type_level o;
  o_format := o_format o;
  o_roi := o_roi o;
  o_crop := o_crop o;
  o_scale := o_scale o;
  o_position := o_position o;
  o_channels := o_channels o;
  o_shadow := o_shadow o;
  o_semitransparency := o_semitransparency o;
  o_bg := o_bg o;
  o_bg_type := o_bg_type o;
  o_new_file_name := new_file_name;
  o_return_bytes := return_bytes
|}.

(** Options with another background. *)
Definition with_background (bg_type bg : option string) (o : options)
    : options := {|
  o_size := o_size o;
  o_type := o_type o;
  o_type_level := o_type_level o;
  o_format := o_format o;
  o_roi := o_roi o;
  o_crop := o_crop o;
  o_scale := o_scale o;
  o_position := o_position o;
  o_channels := o_channels o;
  o_shadow := o_shadow o;
  o_semitransparency := o_semitransparency o;
  o_bg := bg;
  o_bg_type := bg_type;
  o_new_file_name := o_new_file_name o;
  o_return_bytes := o_return_bytes o
|}.

(** The error body [{"errors": [{"title": "Foo Bar"}]}]. *)
Definition titled_errors : json :=
  JObj [("errors", JArr [JObj [("title", JStr "Foo Bar")]])].

(** The body [{"errors": "Service Unavailable"}], whose [errors] is a string
    and not a list of objects. *)
Definition untitled_errors : json :=
  JObj [("errors", JStr "Service Unavailable")].

(** ** Further vocabulary *)

(** The image source fields of a request. *)
Definition image_fields (r : Request) : list string :=
  List.filter (has_field r) ["image_file"; "image_url"; "image_file_b64"].

(** The field under which an operation sends its image. *)
Definition source_field (e : entry) : string :=
  match e with
  | ImgFile => "image_file"
  | ImgUrl => "image_url"
  | Base64Img => "image_file_b64"
  end.

(** The twelve fields of [_build_common_data]. *)
Definition common_fields : gset string :=
  list_to_set
    ["size"; "type"; "type_level"; "format"; "roi"; "crop"; "crop_margin";
     "scale"; "position"; "channels"; "add_shadow"; "semitransparency"].

(** The form fields an operation adds to the common ones: its image source,
    unless that is a file part, and the background, unless that is a file
    part or there is none. *)
Definition added_fields (e : entry) (b : background) : gset string :=
  match e with
  | ImgFile => ∅
  | _ => {[source_field e]}
  end
  ∪ match b with
    | BgColor _ => {["bg_color"]}
    | BgUrl _ => {["bg_image_url"]}
    | _ => ∅
    end.

(** ** The constructor and the root logger

    [__init__] also sets up logging (lines 37-47). What it touches of the
    [logging] module is the root logger: its handlers and its level. A
    handler is known by the file it appends to, if it is a file handler,
    and by its level. *)

Definition NOTSET : Z := 0.
Definition ERROR : Z := 40.

Record log_handler := {
  lh_file : option string;
  lh_level : Z
}.

Record root_logger := {
  root_handlers : list log_handler;
  root_level : Z
}.

(** [logging.FileHandler(filename)]: opens the file at once, and raises when
    it does not open. *)
Definition FileHandler (os : host) (filename : string)
    : M root_logger log_handler :=
  match disk os filename with
  | OpenFails => raise (OSError filename)
  | _ => ret {| lh_file := Some filename; lh_level := NOTSET |}
  end.

(** [fh.setLevel(level)] *)
Definition setLevel (level : Z) (fh : log_handler) : log_handler :=
  {| lh_file := lh_file fh; lh_level := level |}.

(** [logging.getLogger().addHandler(fh)] *)
Definition addHandler (fh : log_handler) : M root_logger unit :=
  modify (fun lg =>
    {| root_handlers := root_handlers lg ++ [fh];
       root_level := root_level lg |}).

(** [logging.basicConfig(filename=..., level=...)]: on a root logger without
    handlers, a file handler is added and the level of the root is set; on a
    root logger with handlers nothing is done. *)
Definition basicConfig (os : host) (filename : string) (level : Z)
    : M root_logger unit :=
  hs <- gets root_handlers ;;
  match hs with
  | [] =>
      fh <- FileHandler os filename ;;
      addHandler fh ;;
      modify (fun lg =>
        {| root_handlers := root_handlers lg; root_level := level |})
  | _ => ret tt
  end.

(** The logging part of [__init__]. *)
Definition configure_logging (os : host) (error_log_file : string)
    : M root_logger unit :=
  hs <- gets root_handlers ;;
  match hs with
  | [] => basicConfig os error_log_file ERROR
  | _ =>
      try_except
        (fh <- FileHandler os error_log_file ;;
         addHandler (setLevel ERROR fh))
        Exception
        (fun _ => ret tt)
  end.

(** [RemoveBg(api_key, error_log_file, timeout, session)] *)
Definition new_client (os : host) (api_key error_log_file : string)
    (timeout : option Z) (session : Request -> post_outcome)
    : M root_logger RemoveBg :=
  configure_logging os error_log_file ;;
  ret (__init__ api_key timeout session).

(** One client after another, with the same log file. *)
Fixpoint new_clients (os : host) (error_log_file : string) (n : nat)
    : M root_logger unit :=
  match n with
  | O => ret tt
  | S n' =>
      new_client os "" error_log_file None (fun _ => Raises "") ;;
      new_clients os error_log_file n'
  end.

(** The handlers that append to [file]. *)
Definition handlers_on (file : string) (lg : root_logger)
    : list log_handler :=
  List.filter (fun h => bool_decide (lh_file h = Some file))
    (root_handlers lg).

(** A host on which the log file does not open. *)
Definition closed_log_host : host :=
  {| readable := fun _ => true; disk := fun _ => OpenFails |}.

(** A process that has configured a console handler at level 20. *)
Definition console_logging : root_logger :=
  {| root_handlers := [{| lh_file := None; lh_level := 20 |}];
     root_level := 20 |}.

(** A process that has not configured logging: no handler, the root at
    WARNING. *)
Definition fresh_logging : root_logger :=
  {| root_handlers := []; root_level := 30 |}.

(** A host on which no file opens for reading. *)
Definition no_read_host : host :=
  {| readable := fun _ => false; disk := fun _ => WriteOk |}.

(** ** ASCII titles *)

(** A string of ASCII characters. *)
Fixpoint is_ascii (s : string) : bool :=
  match s with
  | EmptyString => true
  | String c s' => (nat_of_ascii c <? 128)%nat && is_ascii s'
  end.

(** The title of the first error of a body of the documented shape. *)
Definition first_title (r : Response) : option string :=
  match json_body r with
  | Some (JObj kv) =>
      match dict_lookup "errors" kv with
      | Some (JArr (JObj e :: _)) =>
          match dict_lookup "title" e with
          | Some (JStr t) => Some t
          | _ => None
          end
      | _ => None
      end
  | _ => None
  end.

(** The title that [_output_file] would lower-case, if there is one, is a
    string of ASCII characters. *)
Definition ascii_title (r : Response) : Prop :=
  forall t, first_title r = Some t -> is_ascii t = true.

(** * Properties *)

(** ** Running the monad *)

Lemma bind_ret {S A B} (a : A) (k : A -> M S B) : bind (ret a) k = k a.
Proof. reflexivity. Qed.

Lemma bind_raise {S A B} (e : exn) (k : A -> M S B) :
  bind (raise e) k = raise e.
Proof. reflexivity. Qed.

Lemma bind_run {S A B} (m : M S A) (k : A -> M S B) (s : S) :
  bind m k s = match m s with
               | (inr a, s1) => k a s1
               | (inl e, s1) => (inl e, s1)
               end.
Proof. reflexivity. Qed.

(** ** Validation *)

Lemma check_arguments_valid {S} size type type_level format channels :
  valid_options size type type_level format channels ->
  @_check_arguments S size type type_level format channels = ret tt.
Proof.
  intros (Hs & Ht & Hl & Hf & Hc). unfold _check_arguments.
  rewrite !bool_decide_eq_true_2 by assumption. reflexivity.
Qed.

Lemma check_arguments_invalid {S} size type type_level format channels :
  ~ valid_options size type type_level format channels ->
  exists msg,
    @_check_arguments S size type type_level format channels
    = raise (ValueError msg)
    /\ msg <> "Either provide new_file_name or set return_bytes=True".
Proof.
  intros Hbad. unfold _check_arguments.
  repeat (case_bool_decide; cbn [negb];
          [ | eexists; split; [reflexivity | discriminate] ]).
  exfalso. apply Hbad. repeat split; assumption.
Qed.

Lemma valid_dec o : valid o \/ ~ valid o.
Proof.
  unfold valid, valid_options.
  destruct (decide (o_size o ∈ ["auto"; "preview"; "small"; "regular";
                                "medium"; "hd"; "full"; "4k"]));
  destruct (decide (o_type o ∈ ["auto"; "person"; "product"; "animal"; "car";
                                "car_interior"; "car_part"; "transportation";
                                "graphics"; "other"]));
  destruct (decide (o_type_level o ∈ ["none"; "latest"; "1"; "2"]));
  destruct (decide (o_format o ∈ ["jpg"; "zip"; "png"; "auto"]));
  destruct (decide (o_channels o ∈ ["rgba"; "alpha"]));
  tauto.
Qed.

(** ** Response handling *)

Lemma close_at (l : list handle) (h : handle) (rest : list handle) (i : nat) :
  i = length l ->
  alter mark_closed i (l ++ h :: rest) = l ++ mark_closed h :: rest.
Proof.
  intros ->. replace (length l) with (length l + 0)%nat by lia.
  rewrite alter_app_r. reflexivity.
Qed.

(** A response with status 200: the file is written, or the failure is
    logged; the call of [_output_file] returns in each case. *)
Lemma output_file_ok os response name w :
  status_code response = 200 ->
  _output_file os response name w =
  (inr tt,
   match disk os name with
   | WriteOk =>
       {| fs := <[name := content response]> (<[name := []]> (fs w));
          handles := handles w ++ [mark_closed (new_handle name WB)];
          log := log w; posts := posts w |}
   | OpenFails =>
       {| fs := fs w; handles := handles w;
          log := log w ++ [write_error name (OSError name)];
          posts := posts w |}
   | WriteFails n =>
       {| fs := <[name := take n (content response)]> (<[name := []]> (fs w));
          handles := handles w ++ [mark_closed (new_handle name WB)];
          log := log w ++ [write_error name (OSError name)];
          posts := posts w |}
   end).
Proof.
  intros Hs. unfold _output_file. rewrite Hs. cbn [Z.eqb Pos.eqb codes_ok].
  unfold try_except, with_open, try_finally, open_wb, write, close, modify, logger_error.
  rewrite bind_run.
  destruct (disk os name) eqn:Hd.
  all: cbn [set_fs set_handles handles fs log posts set_log].
  2: reflexivity.
  all: rewrite list_lookup_middle by reflexivity; cbn [h_closed new_handle h_path]; rewrite Hd.
  all: cbn [set_fs set_handles handles fs log posts set_log Exception].
  all: unfold modify, set_handles, set_fs, set_log; cbn [fs handles log posts].
  all: rewrite close_at by reflexivity; reflexivity.
Qed.

(** Reading the reason, as [_output_file] does between [try] and [except]. *)
Lemma reads_reason_run {S} r reason (s : S) :
  reads_reason r reason ->
  try_except
    (payload <- response_json r ;;
     if isinstance_dict payload && json_truthy (dict_get "errors" payload)
     then
       first <- subscript0 (dict_get "errors" payload) ;;
       title <- method_get first "title" (JStr "unknown error") ;;
       method_lower title
     else ret "unknown error")
    is_ValueError
    (fun _ => ret "unknown error") s = (inr reason, s).
Proof.
  intros H. unfold try_except, response_json.
  destruct H as [r kv e rest t Hj He Ht | r Hj | r j Hj Hd | r kv Hj He
                | r kv e rest Hj He Ht]; rewrite Hj.
  - rewrite bind_ret. cbn [isinstance_dict dict_get andb]. rewrite He.
    cbn [default from_option id json_truthy length Nat.eqb negb subscript0].
    rewrite bind_ret. cbn [method_get]. rewrite Ht. reflexivity.
  - reflexivity.
  - rewrite bind_ret, Hd. reflexivity.
  - rewrite bind_ret. cbn [isinstance_dict dict_get andb]. rewrite He.
    reflexivity.
  - rewrite bind_ret. cbn [isinstance_dict dict_get andb]. rewrite He.
    cbn [default from_option id json_truthy length Nat.eqb negb subscript0].
    rewrite bind_ret. cbn [method_get]. rewrite Ht. reflexivity.
Qed.

(** A response with another status: the reason is read and logged. *)
Lemma output_file_error os response name reason w :
  status_code response <> 200 ->
  reads_reason response reason ->
  _output_file os response name w =
  (inr tt,
   {| fs := fs w; handles := handles w;
      log := log w ++ [save_error name reason (status_code response)];
      posts := posts w |}).
Proof.
  intros Hs Hr. unfold _output_file.
  destruct (Z.eqb_spec (status_code response) codes_ok) as [E|_];
    [contradiction|].
  cbv zeta. rewrite bind_run, (reads_reason_run _ _ _ Hr). reflexivity.
Qed.

Ltac pure_done :=
  eexists; split;
  [ reflexivity | first [ discriminate | intros ? [= <-]; reflexivity ] ].

(** Whatever the body is, reading the reason leaves the state alone and
    lets no [ValueError] through. *)
Lemma read_reason_any {S} r (s : S) :
  exists x,
    try_except
      (payload <- response_json r ;;
       if isinstance_dict payload && json_truthy (dict_get "errors" payload)
       then
         first <- subscript0 (dict_get "errors" payload) ;;
         title <- method_get first "title" (JStr "unknown error") ;;
         method_lower title
       else ret "unknown error")
      is_ValueError
      (fun _ => ret "unknown error") s = (x, s)
    /\ forall e, x = inl e -> is_ValueError e = false.
Proof.
  unfold try_except, response_json.
  destruct (json_body r) as [payload|]; [|pure_done].
  rewrite bind_ret.
  destruct (isinstance_dict payload && json_truthy (dict_get "errors" payload));
    [|pure_done].
  destruct (dict_get "errors" payload) as [| | |[|c s']|[|x l]|kv];
    cbn [subscript0]; rewrite ?bind_ret, ?bind_raise; try pure_done.
  destruct x as [| | | |l'|kv']; cbn [method_get];
    rewrite ?bind_ret, ?bind_raise; try pure_done.
  destruct (default (JStr "unknown error") (dict_lookup "title" kv'));
    cbn [method_lower]; pure_done.
Qed.

Lemma grows_refl w : grows w w.
Proof.
  split; [reflexivity|]. exists []. rewrite app_nil_r. split; constructor.
Qed.

(** [_output_file] posts nothing, leaves no handle open and raises no
    [ValueError]. *)
Lemma output_file_any os response name w :
  grows w (snd (_output_file os response name w))
  /\ forall msg, fst (_output_file os response name w) <> inl (ValueError msg).
Proof.
  destruct (Z.eq_dec (status_code response) 200) as [E|E].
  - rewrite (output_file_ok _ _ _ _ E). cbn [fst snd]. split; [|discriminate].
    split.
    + destruct (disk os name); reflexivity.
    + destruct (disk os name); cbn [handles].
      * eexists. split; [reflexivity|]. repeat constructor.
      * exists []. rewrite app_nil_r. split; constructor.
      * eexists. split; [reflexivity|]. repeat constructor.
  - unfold _output_file.
    destruct (Z.eqb_spec (status_code response) codes_ok) as [E'|_];
      [contradiction|].
    cbv zeta. rewrite bind_run.
    destruct (read_reason_any response w) as (x & -> & Hx).
    destruct x as [e|reason]; cbn [fst snd].
    + split; [apply grows_refl|]. intros msg [= ->]. 
      specialize (Hx _ eq_refl). discriminate.
    + split; [|discriminate]. split; [reflexivity|].
      exists []. cbn [handles]. rewrite app_nil_r. split; constructor.
Qed.

(** ** The post and what follows it *)

Lemma send_raises os self r nfn rb w msg :
  _session self r = Raises msg ->
  send_and_handle os self r nfn rb w = (inl (RequestException msg), posted r w).
Proof.
  intros H. unfold send_and_handle. rewrite bind_run. unfold post.
  rewrite H. reflexivity.
Qed.

Lemma send_http_error os self r nfn rb w response :
  _session self r = Responds response ->
  is_error_status response = true ->
  send_and_handle os self r nfn rb w =
  (inl (HTTPError (status_code response)), posted r w).
Proof.
  intros H He. unfold send_and_handle. rewrite bind_run. unfold post.
  rewrite H. cbv zeta. unfold handle_response, raise_for_status.
  unfold is_error_status in He. rewrite He. reflexivity.
Qed.

Lemma send_no_file os self r nfn rb w response :
  _session self r = Responds response ->
  is_error_status response = false ->
  truthy_str nfn = false ->
  send_and_handle os self r nfn rb w = (inr (returned response rb), posted r w).
Proof.
  intros H He Hn. unfold send_and_handle. rewrite bind_run. unfold post.
  rewrite H. cbv zeta. unfold handle_response, raise_for_status.
  unfold is_error_status in He. rewrite He, Hn, bind_ret.
  destruct rb; reflexivity.
Qed.

Lemma send_file os self r name rb w response :
  _session self r = Responds response ->
  is_error_status response = false ->
  name <> "" ->
  send_and_handle os self r (Some name) rb w =
  (match fst (_output_file os response name (posted r w)) with
   | inl e => inl e
   | inr _ => inr (returned response rb)
   end,
   snd (_output_file os response name (posted r w))).
Proof.
  intros H He Hn. unfold send_and_handle. rewrite bind_run. unfold post.
  rewrite H. cbv zeta. unfold handle_response, raise_for_status.
  unfold is_error_status in He. rewrite He, bind_ret.
  unfold truthy_str. rewrite bool_decide_eq_false_2 by assumption.
  cbn [negb str_of default from_option id]. fold (posted r w).
  destruct rb; cbv zeta; rewrite bind_run;
    destruct (_output_file os response name (posted r w)) as [[e|[]] w'];
    reflexivity.
Qed.

(** In every case the request is recorded once, no handle is left open and
    no [ValueError] comes out. *)
Lemma send_and_handle_any os self r nfn rb w :
  posts (snd (send_and_handle os self r nfn rb w)) = posts w ++ [r]
  /\ (exists new,
        handles (snd (send_and_handle os self r nfn rb w)) = handles w ++ new
        /\ Forall closed new)
  /\ forall msg,
       fst (send_and_handle os self r nfn rb w) <> inl (ValueError msg).
Proof.
  assert (Hnil : exists new : list handle,
             handles (posted r w) = handles w ++ new /\ Forall closed new).
  { exists []. cbn [posted set_posts handles]. rewrite app_nil_r.
    split; constructor. }
  destruct (_session self r) as [msg|response] eqn:Hs.
  { rewrite (send_raises _ _ _ _ _ _ _ Hs). cbn [fst snd].
    repeat split; [assumption | discriminate]. }
  destruct (is_error_status response) eqn:He.
  { rewrite (send_http_error _ _ _ _ _ _ _ Hs He). cbn [fst snd].
    repeat split; [assumption | discriminate]. }
  destruct (truthy_str nfn) eqn:Hn.
  - destruct nfn as [name|]; [|discriminate]. unfold truthy_str in Hn.
    case_bool_decide; [discriminate|].
    rewrite (send_file _ _ _ _ _ _ _ Hs He) by assumption. cbn [fst snd].
    destruct (output_file_any os response name (posted r w))
      as ((Hp & Hh) & Hv).
    split; [exact Hp|]. split; [exact Hh|].
    intros msg. destruct (fst (_output_file os response name (posted r w)))
      as [e|[]] eqn:Hf; [|discriminate].
    intros [= ->]. exact (Hv msg eq_refl).
  - rewrite (send_no_file _ _ _ _ _ _ _ Hs He Hn). cbn [fst snd].
    repeat split; [assumption | discriminate].
Qed.

(** ** The entry operations, step by step *)

Lemma attach_background_run os bg_type bg d fr w :
  attach_background os bg_type bg d (fr, w) =
  match background_of bg_type bg with
  | BgPath p =>
      if readable os p
      then (inr d,
            ({| files := <["bg_image_file" := length (handles w)]> (files fr);
                bg_file_handle := Some (length (handles w)) |},
             opened p w))
      else (inl (OSError p), (fr, w))
  | b => (inr (add_background b d), (fr, w))
  end.
Proof.
  unfold attach_background, background_of, truthy_str.
  destruct bg_type as [t|], bg as [b|]; rewrite ?andb_false_r; try reflexivity.
  destruct (bool_decide (b = "")); cbn [negb]; rewrite ?andb_false_r;
    [reflexivity|].
  rewrite !andb_true_r.
  assert (Hd : forall k : string,
             bool_decide (Some t = Some k) = bool_decide (t = k)).
  { intros k. apply bool_decide_ext. split; congruence. }
  rewrite !Hd.
  destruct (bool_decide (t = "path")).
  - rewrite !bind_run. unfold lift, open_rb.
    cbn [fst snd str_of default from_option id].
    destruct (readable os b); reflexivity.
  - destruct (bool_decide (t = "color")); [reflexivity|].
    destruct (bool_decide (t = "url")); reflexivity.
Qed.

Lemma close_background_run fr w :
  close_background (fr, w) =
  (inr tt, (fr, match bg_file_handle fr with
                | Some f => set_handles (alter mark_closed f) w
                | None => w
                end)).
Proof.
  unfold close_background. rewrite bind_run. unfold gets. cbn [fst].
  destruct (bg_file_handle fr); reflexivity.
Qed.

(** The post and the response handling inside the [try], run in a frame. *)
Lemma tail_run os self (req : gmap string nat -> Request) nfn rb fr w :
  (files <- gets (fun s : frame * world => files (fst s)) ;;
   response <- lift (post self (req files)) ;;
   lift (handle_response os response nfn rb)) (fr, w) =
  (fst (send_and_handle os self (req (files fr)) nfn rb w),
   (fr, snd (send_and_handle os self (req (files fr)) nfn rb w))).
Proof.
  unfold send_and_handle, bind, gets, lift. cbn [fst snd].
  destruct (post self _ w) as [[e|response] w1]; [reflexivity|]. cbn [snd fst].
  destruct (handle_response os response nfn rb w1); reflexivity.
Qed.

Lemma files_empty : bool_decide ((∅ : gmap string nat) = ∅) = true.
Proof. apply bool_decide_eq_true_2. reflexivity. Qed.

Lemma files_nonempty (k : string) (f : nat) (m : gmap string nat) :
  bool_decide (<[k := f]> m = ∅) = false.
Proof. apply bool_decide_eq_false_2, insert_non_empty. Qed.

Lemma consumable_check o :
  consumable o ->
  negb (o_return_bytes o) && bool_decide (o_new_file_name o = None) = false.
Proof.
  intros [H|H]; [rewrite H; reflexivity|].
  rewrite (bool_decide_eq_false_2 _ H). apply andb_false_r.
Qed.

(** The URL and base64 operations on valid options. *)
Lemma form_call os e self img o w :
  e <> ImgFile -> valid o -> consumable o ->
  call os e self img o w =
  match background_of (o_bg_type o) (o_bg o) with
  | BgPath p =>
      if readable os p
      then closing (length (handles w))
             (send_and_handle os self
                (mk_request self
                   (Some (<["bg_image_file" := length (handles w)]> ∅))
                   (form_data e img o))
                (o_new_file_name o) (o_return_bytes o) (opened p w))
      else (inl (OSError p), w)
  | b => send_and_handle os self
           (mk_request self None (add_background b (form_data e img o)))
           (o_new_file_name o) (o_return_bytes o) w
  end.
Proof.
  intros He Hv Hc. apply consumable_check in Hc.
  destruct e; [contradiction| |];
    unfold call, remove_background_from_img_url,
      remove_background_from_base64_img, form_data;
    rewrite (check_arguments_valid _ _ _ _ _ Hv), Hc, !bind_ret;
    cbv zeta;
    unfold in_frame, try_finally; rewrite bind_run, attach_background_run;
    (destruct (background_of (o_bg_type o) (o_bg o)) as [p|c|u|];
     [destruct (readable os p)|..]);
    rewrite ?tail_run, close_background_run;
    cbn [files bg_file_handle fst snd add_background];
    rewrite ?files_empty, ?files_nonempty;
    first [reflexivity | symmetry; apply surjective_pairing].
Qed.

(** The file operation on valid options. *)
Lemma file_call os self img o w :
  valid o ->
  call os ImgFile self img o w =
  if readable os img
  then
    match background_of (o_bg_type o) (o_bg o) with
    | BgPath p =>
        if readable os p
        then closing (length (handles (opened img w)))
               (closing (length (handles w))
                  (send_and_handle os self
                     (mk_request self
                        (Some (<["bg_image_file" :=
                                   length (handles (opened img w))]>
                                 (<["image_file" := length (handles w)]> ∅)))
                        (form_data ImgFile img o))
                     (o_new_file_name o) (o_return_bytes o)
                     (opened p (opened img w))))
        else closing (length (handles w)) (inl (OSError p), opened img w)
    | b => closing (length (handles w))
             (send_and_handle os self
                (mk_request self
                   (Some (<["image_file" := length (handles w)]> ∅))
                   (add_background b (form_data ImgFile img o)))
                (o_new_file_name o) (o_return_bytes o) (opened img w))
    end
  else (inl (OSError img), w).
Proof.
  intros Hv.
  unfold call, remove_background_from_img_file, form_data.
  rewrite (check_arguments_valid _ _ _ _ _ Hv), !bind_ret.
  unfold in_frame, try_finally, with_open.
  rewrite bind_run.
  unfold lift at 1, open_rb at 1. cbn [fst snd].
  destruct (readable os img); [|rewrite close_background_run; reflexivity].
  fold (opened img w). cbv zeta. unfold try_finally. rewrite bind_run.
  unfold set_file at 1, modify at 1. cbn [fst snd files bg_file_handle].
  rewrite bind_run, attach_background_run. cbn [files bg_file_handle].
  destruct (background_of (o_bg_type o) (o_bg o)) as [p|c|u|];
    [destruct (readable os p)|..];
    rewrite ?tail_run; unfold lift, close, modify; cbn [fst snd];
    rewrite close_background_run;
    cbn [files bg_file_handle fst snd add_background];
    reflexivity.
Qed.

(** ** Claims *)

(** C2. An option outside its enumeration makes each of the three entry
    operations raise [ValueError]; the world is the one the call started
    from, so nothing has been posted. *)
Theorem invalid_option_rejected os e self img o w :
  o_size o ∉ ["auto"; "preview"; "small"; "regular"; "medium"; "hd"; "full";
              "4k"]
  \/ o_type o ∉ ["auto"; "person"; "product"; "animal"; "car"; "car_interior";
                 "car_part"; "transportation"; "graphics"; "other"]
  \/ o_type_level o ∉ ["none"; "latest"; "1"; "2"]
  \/ o_format o ∉ ["jpg"; "zip"; "png"; "auto"]
  \/ o_channels o ∉ ["rgba"; "alpha"] ->
  exists msg,
    call os e self img o w = (inl (ValueError msg), w)
    /\ posts (snd (call os e self img o w)) = posts w.
Proof.
  intros Hbad.
  assert (Hinv : ~ valid o).
  { unfold valid, valid_options. tauto. }
  destruct (check_arguments_invalid (S := world) _ _ _ _ _ Hinv)
    as (msg & Hmsg & _).
  exists msg.
  assert (Hcall : call os e self img o w = (inl (ValueError msg), w)).
  { destruct e;
      unfold call, remove_background_from_img_file,
        remove_background_from_img_url, remove_background_from_base64_img;
      rewrite Hmsg, bind_raise; reflexivity. }
  rewrite Hcall. split; reflexivity.
Qed.

Lemma opened_next path w :
  length (handles (opened path w)) = S (length (handles w)).
Proof.
  unfold opened, set_handles. cbn [handles]. rewrite length_app.
  cbn [length]. lia.
Qed.

(** A call on valid options whose inputs open: one post from the world with
    the inputs open, and the inputs closed afterwards. *)
Lemma call_run os e self img o w :
  valid o -> (e <> ImgFile -> consumable o) ->
  inputs_readable os e img o ->
  call os e self img o w =
  (fst (send_and_handle os self (request_of e self img o w)
          (o_new_file_name o) (o_return_bytes o)
          (open_inputs e img (background_of (o_bg_type o) (o_bg o)) w)),
   close_inputs e (background_of (o_bg_type o) (o_bg o)) (length (handles w))
     (snd (send_and_handle os self (request_of e self img o w)
             (o_new_file_name o) (o_return_bytes o)
             (open_inputs e img (background_of (o_bg_type o) (o_bg o)) w)))).
Proof.
  intros Hv Hc [Hi Hb]. unfold request_of, open_inputs, close_inputs.
  destruct e.
  - rewrite (file_call _ _ _ _ _ Hv), (Hi eq_refl), opened_next.
    destruct (background_of (o_bg_type o) (o_bg o)) as [p|c|u|];
      [rewrite (Hb p eq_refl)|..]; reflexivity.
  - rewrite form_call by (try apply Hc; discriminate || assumption).
    destruct (background_of (o_bg_type o) (o_bg o)) as [p|c|u|];
      [rewrite (Hb p eq_refl); reflexivity|..];
      cbv zeta; cbn [files_of]; apply surjective_pairing.
  - rewrite form_call by (try apply Hc; discriminate || assumption).
    destruct (background_of (o_bg_type o) (o_bg o)) as [p|c|u|];
      [rewrite (Hb p eq_refl); reflexivity|..];
      cbv zeta; cbn [files_of]; apply surjective_pairing.
Qed.

Lemma open_inputs_same e img b w :
  posts (open_inputs e img b w) = posts w
  /\ log (open_inputs e img b w) = log w
  /\ fs (open_inputs e img b w) = fs w.
Proof. destruct e, b; repeat split. Qed.

Lemma close_inputs_same e b n x :
  posts (close_inputs e b n x) = posts x
  /\ log (close_inputs e b n x) = log x
  /\ fs (close_inputs e b n x) = fs x.
Proof. destruct e, b; repeat split. Qed.


(** *** Calls that end before the post *)

Lemma call_rejected os e self img o w :
  ~ valid o \/ (e <> ImgFile /\ ~ consumable o) ->
  exists msg, call os e self img o w = (inl (ValueError msg), w).
Proof.
  intros H. destruct (valid_dec o) as [Hv|Hv].
  - destruct H as [H|[He Hc]]; [contradiction|].
    assert (Hchk : negb (o_return_bytes o)
                   && bool_decide (o_new_file_name o = None) = true).
    { unfold consumable in Hc. destruct (o_return_bytes o); [tauto|].
      destruct (o_new_file_name o); [exfalso; apply Hc; right; discriminate|].
      reflexivity. }
    eexists.
    destruct e; [contradiction|..];
      unfold call, remove_background_from_img_url,
        remove_background_from_base64_img;
      rewrite (check_arguments_valid _ _ _ _ _ Hv), Hchk, bind_ret, bind_raise;
      reflexivity.
  - destruct (check_arguments_invalid (S := world) _ _ _ _ _ Hv)
      as (msg & Hmsg & _).
    exists msg.
    destruct e;
      unfold call, remove_background_from_img_file,
        remove_background_from_img_url, remove_background_from_base64_img;
      rewrite Hmsg, bind_raise; reflexivity.
Qed.

Lemma call_stops os e self img o w :
  valid o -> (e <> ImgFile -> consumable o) ->
  ~ inputs_readable os e img o ->
  exists p, fst (call os e self img o w) = inl (OSError p)
            /\ quiet w (snd (call os e self img o w)).
Proof.
  intros Hv Hc Hn.
  assert (Hq : quiet w w).
  { repeat split. exists []. rewrite app_nil_r. split; constructor. }
  assert (Hform : e <> ImgFile ->
            exists p, fst (call os e self img o w) = inl (OSError p)
                      /\ quiet w (snd (call os e self img o w))).
  { intros He. rewrite form_call by auto.
    destruct (background_of (o_bg_type o) (o_bg o)) as [p|c|u|] eqn:Hb.
    2-4: exfalso; apply Hn; split;
         [intros ->; contradiction | intros p Hp; rewrite Hb in Hp; discriminate].
    destruct (readable os p) eqn:Hp;
      [|exists p; split; [reflexivity|exact Hq]].
    exfalso. apply Hn. split; [intros ->; contradiction|].
    intros p' Hp'. rewrite Hb in Hp'. injection Hp' as <-. exact Hp. }
  destruct e; [|apply Hform; discriminate..].
  rewrite (file_call _ _ _ _ _ Hv).
  destruct (readable os img) eqn:Hi;
    [|exists img; split; [reflexivity|exact Hq]].
  destruct (background_of (o_bg_type o) (o_bg o)) as [p|c|u|] eqn:Hb.
  2-4: exfalso; apply Hn; split;
       [intros _; exact Hi | intros p Hp; rewrite Hb in Hp; discriminate].
  destruct (readable os p) eqn:Hp.
  { exfalso. apply Hn. split; [intros _; exact Hi|].
    intros p' Hp'. rewrite Hb in Hp'. injection Hp' as <-. exact Hp. }
  exists p. split; [reflexivity|]. cbn [closing fst snd].
  repeat split. cbn [set_handles opened handles].
  rewrite close_at by reflexivity. eexists. split; [reflexivity|].
  repeat constructor.
Qed.

Lemma consumable_dec o : consumable o \/ ~ consumable o.
Proof.
  unfold consumable. destruct (o_return_bytes o); [left; left; reflexivity|].
  destruct (o_new_file_name o); [left; right; discriminate|].
  right. intros [H|H]; [discriminate | contradiction].
Qed.

Lemma inputs_readable_dec os e img o :
  inputs_readable os e img o \/ ~ inputs_readable os e img o.
Proof.
  unfold inputs_readable.
  assert (Hi : (e = ImgFile -> readable os img = true)
               \/ ~ (e = ImgFile -> readable os img = true)).
  { destruct e; [|left; discriminate..].
    destruct (readable os img); [left; reflexivity|].
    right. intros H. specialize (H eq_refl). discriminate. }
  destruct (background_of (o_bg_type o) (o_bg o)) as [p|c|u|].
  2-4: destruct Hi; [left; split; [assumption|discriminate] | right; tauto].
  destruct (readable os p) eqn:Hp.
  - destruct Hi; [left; split; [assumption|] | right; tauto].
    intros p' [= <-]. exact Hp.
  - right. intros [_ H]. specialize (H p eq_refl). congruence.
Qed.

(** The three ways a call goes: rejected, stopped at an input that does not
    open, or run to the post. *)
Lemma call_cases os e img o :
  (~ valid o \/ (e <> ImgFile /\ ~ consumable o))
  \/ (valid o /\ (e <> ImgFile -> consumable o)
      /\ ~ inputs_readable os e img o)
  \/ (valid o /\ (e <> ImgFile -> consumable o)
      /\ inputs_readable os e img o).
Proof.
  destruct (valid_dec o) as [Hv|Hv]; [|left; left; exact Hv].
  assert (Hc : (e <> ImgFile -> consumable o)
               \/ (e <> ImgFile /\ ~ consumable o)).
  { destruct (consumable_dec o) as [H|H]; [left; intros _; exact H|].
    destruct e; [left; contradiction|right; split; [discriminate|exact H]..]. }
  destruct Hc as [Hc|Hc]; [|left; right; exact Hc].
  destruct (inputs_readable_dec os e img o); tauto.
Qed.

(** No call on valid options that passes the consumption check raises a
    [ValueError]. *)
Lemma call_no_value_error os e self img o w msg :
  valid o -> (e <> ImgFile -> consumable o) ->
  fst (call os e self img o w) <> inl (ValueError msg).
Proof.
  intros Hv Hc.
  destruct (inputs_readable_dec os e img o) as [Hr|Hr].
  - rewrite call_run by assumption. cbn [fst].
    apply send_and_handle_any.
  - destruct (call_stops os e self img o w Hv Hc Hr) as (p & -> & _).
    discriminate.
Qed.

(** C3. The URL and base64 operations raise [ValueError] before anything is
    posted when [new_file_name] is [None] and [return_bytes] is false. With
    one of the two set the call does not raise that error, and on valid
    options with inputs that open it goes on to post. *)
Theorem consumption_mode_required os e self img o w :
  e = ImgUrl \/ e = Base64Img ->
  (o_new_file_name o = None -> o_return_bytes o = false ->
   exists msg, call os e self img o w = (inl (ValueError msg), w))
  /\ (o_new_file_name o <> None \/ o_return_bytes o = true ->
      fst (call os e self img o w)
      <> inl (ValueError
                "Either provide new_file_name or set return_bytes=True"))
  /\ (o_new_file_name o <> None \/ o_return_bytes o = true ->
      valid o -> inputs_readable os e img o ->
      posts (snd (call os e self img o w))
      = posts w ++ [request_of e self img o w]).
Proof.
  intros He.
  assert (Hne : e <> ImgFile) by (destruct He; subst; discriminate).
  split; [|split].
  - intros Hn Hr. apply call_rejected.
    destruct (valid_dec o) as [Hv|Hv]; [right|left; exact Hv].
    split; [exact Hne|]. unfold consumable. rewrite Hn, Hr.
    intros [H|H]; [discriminate | contradiction].
  - intros Hc.
    assert (Hc' : consumable o) by (unfold consumable; tauto).
    destruct (valid_dec o) as [Hv|Hv].
    + apply call_no_value_error; auto.
    + destruct (check_arguments_invalid (S := world) _ _ _ _ _ Hv)
        as (msg & Hmsg & Hdiff).
      assert (Hcall : call os e self img o w = (inl (ValueError msg), w)).
      { destruct e;
          unfold call, remove_background_from_img_file,
            remove_background_from_img_url,
            remove_background_from_base64_img;
          rewrite Hmsg, bind_raise; reflexivity. }
      rewrite Hcall. cbn [fst]. intros [= ->]. apply Hdiff. reflexivity.
  - intros Hc Hv Hr.
    assert (Hc' : consumable o) by (unfold consumable; tauto).
    rewrite call_run by auto. cbn [snd].
    destruct (close_inputs_same e (background_of (o_bg_type o) (o_bg o))
                (length (handles w))
                (snd (send_and_handle os self (request_of e self img o w)
                        (o_new_file_name o) (o_return_bytes o)
                        (open_inputs e img
                           (background_of (o_bg_type o) (o_bg o)) w))))
      as (-> & _).
    destruct (send_and_handle_any os self (request_of e self img o w)
                (o_new_file_name o) (o_return_bytes o)
                (open_inputs e img (background_of (o_bg_type o) (o_bg o)) w))
      as (-> & _).
    destruct (open_inputs_same e img (background_of (o_bg_type o) (o_bg o)) w)
      as (-> & _).
    reflexivity.
Qed.

Lemma call_run_posts os e self img o w :
  valid o -> (e <> ImgFile -> consumable o) ->
  inputs_readable os e img o ->
  posts (snd (call os e self img o w)) = posts w ++ [request_of e self img o w].
Proof.
  intros Hv Hc Hr. rewrite call_run by auto. cbn [snd].
  destruct (close_inputs_same e (background_of (o_bg_type o) (o_bg o))
              (length (handles w))
              (snd (send_and_handle os self (request_of e self img o w)
                      (o_new_file_name o) (o_return_bytes o)
                      (open_inputs e img
                         (background_of (o_bg_type o) (o_bg o)) w))))
    as (-> & _).
  destruct (send_and_handle_any os self (request_of e self img o w)
              (o_new_file_name o) (o_return_bytes o)
              (open_inputs e img (background_of (o_bg_type o) (o_bg o)) w))
    as (-> & _).
  destruct (open_inputs_same e img (background_of (o_bg_type o) (o_bg o)) w)
    as (-> & _).
  reflexivity.
Qed.

(** What a call posts: nothing, or its one request. *)
Lemma call_posts os e self img o w :
  exists sent,
    posts (snd (call os e self img o w)) = posts w ++ sent
    /\ (sent = [] \/ sent = [request_of e self img o w]).
Proof.
  destruct (call_cases os e img o) as [H|[(Hv & Hc & Hr)|(Hv & Hc & Hr)]].
  - destruct (call_rejected os e self img o w H) as (msg & ->).
    exists []. rewrite app_nil_r. split; [reflexivity | left; reflexivity].
  - destruct (call_stops os e self img o w Hv Hc Hr) as (p & _ & Hp & _).
    exists []. rewrite app_nil_r. split; [exact Hp | left; reflexivity].
  - exists [request_of e self img o w].
    split; [apply call_run_posts; assumption | right; reflexivity].
Qed.

(** The background fields of the request are those of the background. *)
Lemma request_bg_fields e self img o w :
  bg_fields (request_of e self img o w)
  = field_of (background_of (o_bg_type o) (o_bg o)).
Proof.
  unfold request_of.
  destruct (background_of (o_bg_type o) (o_bg o)) as [p|c|u|], e;
    vm_compute; reflexivity.
Qed.

Lemma background_of_given bg_type bg t b :
  bg_type = Some t -> bg = Some b -> b <> "" ->
  background_of bg_type bg =
  if bool_decide (t = "path") then BgPath b
  else if bool_decide (t = "color") then BgColor b
  else if bool_decide (t = "url") then BgUrl b
  else BgNone.
Proof.
  intros -> -> Hb. unfold background_of.
  rewrite (bool_decide_eq_false_2 _ Hb). reflexivity.
Qed.

(** C5. A call posts at most one request. When a background is given (a
    non-empty [bg] with [bg_type] among path, color, url) the request carries
    exactly the one background field of that kind, with the given value for
    color and url and a file part for path; with no background given it
    carries none; in no case does it carry more than one. On valid options
    with inputs that open, the request is posted. *)
Theorem one_background_field os e self img o w :
  exists sent,
    posts (snd (call os e self img o w)) = posts w ++ sent
    /\ (length sent <= 1)%nat
    /\ (valid o -> (e <> ImgFile -> consumable o) ->
        inputs_readable os e img o -> length sent = 1%nat)
    /\ forall r, r ∈ sent ->
         (forall b, o_bg o = Some b -> b <> "" ->
            (o_bg_type o = Some "path" ->
             bg_fields r = ["bg_image_file"]
             /\ exists fl f, req_files r = Some fl
                             /\ fl !! "bg_image_file" = Some f)
            /\ (o_bg_type o = Some "color" ->
                bg_fields r = ["bg_color"]
                /\ req_data r !! "bg_color" = Some (VStr b))
            /\ (o_bg_type o = Some "url" ->
                bg_fields r = ["bg_image_url"]
                /\ req_data r !! "bg_image_url" = Some (VStr b)))
         /\ (o_bg_type o = None \/ o_bg o = None -> bg_fields r = [])
         /\ (length (bg_fields r) <= 1)%nat.
Proof.
  destruct (call_posts os e self img o w) as (sent & Hp & Hs).
  exists sent. split; [exact Hp|].
  split; [destruct Hs as [->| ->]; cbn [length]; lia|].
  split.
  { intros Hv Hc Hr.
    pose proof (call_run_posts os e self img o w Hv Hc Hr) as Hq.
    rewrite Hp in Hq. apply app_inv_head in Hq. rewrite Hq. reflexivity. }
  intros r Hin.
  assert (r = request_of e self img o w) as ->.
  { destruct Hs as [->| ->]; [inversion Hin|].
    apply list_elem_of_singleton in Hin. exact Hin. }
  rewrite request_bg_fields.
  split; [|split].
  - intros b Hb Hne. repeat split.
    + rewrite (background_of_given _ _ "path" b) by assumption. reflexivity.
    + unfold request_of.
      rewrite (background_of_given (o_bg_type o) _ "path" b) by assumption.
      cbn [bool_decide decide_rel]. 
      destruct e; cbn [mk_request files_of req_files]; eexists _, _;
        (split; [reflexivity | apply lookup_insert_eq]).
    + rewrite (background_of_given _ _ "color" b) by assumption. reflexivity.
    + unfold request_of.
      rewrite (background_of_given (o_bg_type o) _ "color" b) by assumption.
      apply lookup_insert_eq.
    + rewrite (background_of_given _ _ "url" b) by assumption. reflexivity.
    + unfold request_of.
      rewrite (background_of_given (o_bg_type o) _ "url" b) by assumption.
      apply lookup_insert_eq.
  - intros [H|H]; unfold background_of; rewrite H;
      [reflexivity | destruct (o_bg_type o); reflexivity].
  - destruct (background_of (o_bg_type o) (o_bg o)); cbn [field_of length]; lia.
Qed.

Lemma attach_background_ignored os bg_type bg d :
  unspecified bg_type bg ->
  attach_background os bg_type bg d = ret d.
Proof.
  intros H. unfold attach_background.
  assert (Hc : forall k : string,
             k ∈ ["path"; "color"; "url"] ->
             bool_decide (bg_type = Some k) && truthy_str bg = false).
  { intros k Hk. destruct H as [(Hp & Hu & Hc)|[-> | ->]];
      [|apply andb_false_r..].
    rewrite bool_decide_eq_false_2; [reflexivity|].
    intros ->. rewrite !elem_of_cons in Hk.
    destruct Hk as [->|[->|[->|Hk]]]; [contradiction..|inversion Hk]. }
  rewrite !Hc by (rewrite !elem_of_cons; tauto). reflexivity.
Qed.

Lemma unspecified_none bg_type bg :
  unspecified bg_type bg -> background_of bg_type bg = BgNone.
Proof.
  intros H. unfold background_of.
  destruct bg_type as [t|], bg as [b|]; try reflexivity.
  case_bool_decide; [reflexivity|].
  destruct H as [(Hp & Hu & Hc)|[H|H]]; [|discriminate|congruence].
  repeat (case_bool_decide; [subst; contradiction|]). reflexivity.
Qed.

(** C10. A background whose [bg_type] is not path, url or color, or whose
    [bg] is [None] or empty, is ignored: the call does exactly what the same
    call without a background does, so it raises nothing on that account,
    and a request it posts carries no background field. *)
Theorem background_silently_ignored os e self img o w :
  (o_bg_type o <> Some "path" /\ o_bg_type o <> Some "url"
   /\ o_bg_type o <> Some "color")
  \/ o_bg o = None \/ o_bg o = Some "" ->
  call os e self img o w = call os e self img (without_background o) w
  /\ exists sent,
       posts (snd (call os e self img o w)) = posts w ++ sent
       /\ forall r, r ∈ sent -> bg_fields r = [].
Proof.
  intros H. split.
  - pose proof (attach_background_ignored os _ _ (form_data e img o) H) as Ha.
    destruct e;
      unfold call, remove_background_from_img_file,
        remove_background_from_img_url, remove_background_from_base64_img;
      unfold form_data in Ha; rewrite Ha; reflexivity.
  - destruct (call_posts os e self img o w) as (sent & Hp & Hs).
    exists sent. split; [exact Hp|]. intros r Hin.
    destruct Hs as [->| ->]; [inversion Hin|].
    apply list_elem_of_singleton in Hin. subst r.
    rewrite request_bg_fields, (unspecified_none _ _ H). reflexivity.
Qed.

(** ** File handles *)

Lemma close_one (hs : list handle) (h : handle) (rest : list handle) :
  alter mark_closed (length hs) ((hs ++ [h]) ++ rest)
  = hs ++ mark_closed h :: rest.
Proof. rewrite <- app_assoc. apply close_at. reflexivity. Qed.

Lemma close_two (hs : list handle) (hi hp : handle) (rest : list handle) :
  alter mark_closed (length (hs ++ [hi]))
    (alter mark_closed (length hs) (((hs ++ [hi]) ++ [hp]) ++ rest))
  = hs ++ mark_closed hi :: mark_closed hp :: rest.
Proof.
  rewrite <- !app_assoc. cbn [app]. rewrite close_at by reflexivity.
  change (hs ++ mark_closed hi :: hp :: rest)
    with (hs ++ [mark_closed hi] ++ hp :: rest).
  rewrite app_assoc, close_at by (rewrite !length_app; reflexivity).
  rewrite <- app_assoc. reflexivity.
Qed.

Ltac after_send new Hh Hc :=
  match goal with
  | |- context [send_and_handle ?a ?b ?r ?n ?rb ?w1] =>
      destruct (send_and_handle_any a b r n rb w1)
        as (_ & (new & Hh & Hc) & _)
  end.

(** C8. Whatever way a call ends (it returns, the post raises, the server
    answers with an error status, an input does not open), the handles it
    has opened are closed in the world it leaves. The image file of the file
    operation and a background file are among them once they have been
    opened, the background file in each of the three operations. *)
Theorem handles_closed os e self img o w :
  exists new,
    handles (snd (call os e self img o w)) = handles w ++ new
    /\ Forall closed new
    /\ (valid o -> e = ImgFile -> readable os img = true ->
        mark_closed (new_handle img RB) ∈ new)
    /\ (valid o -> (e <> ImgFile -> consumable o) ->
        (e = ImgFile -> readable os img = true) ->
        forall p, background_of (o_bg_type o) (o_bg o) = BgPath p ->
                  readable os p = true ->
                  mark_closed (new_handle p RB) ∈ new).
Proof.
  set (ok := fun rw : result (option (list Byte.byte)) * world =>
    exists new,
      handles (snd rw) = handles w ++ new
      /\ Forall closed new
      /\ (valid o -> e = ImgFile -> readable os img = true ->
          mark_closed (new_handle img RB) ∈ new)
      /\ (valid o -> (e <> ImgFile -> consumable o) ->
          (e = ImgFile -> readable os img = true) ->
          forall p, background_of (o_bg_type o) (o_bg o) = BgPath p ->
                    readable os p = true ->
                    mark_closed (new_handle p RB) ∈ new)).
  change (ok (call os e self img o w)).
  assert (Hrej : ~ valid o \/ (e <> ImgFile /\ ~ consumable o) ->
                 ok (call os e self img o w)).
  { intros H. destruct (call_rejected os e self img o w H) as (msg & ->).
    exists []. rewrite app_nil_r. split; [reflexivity|].
    split; [constructor|]. split.
    - intros Hv He. destruct H as [H|[H _]]; contradiction.
    - intros Hv Hc. destruct H as [H|[H1 H2]]; [contradiction|].
      exfalso. apply H2, Hc, H1. }
  destruct (valid_dec o) as [Hv|Hv]; [|apply Hrej; left; exact Hv].
  assert (Hform : e <> ImgFile -> ok (call os e self img o w)).
  { intros He.
    destruct (consumable_dec o) as [Hc|Hc]; [|apply Hrej; right; tauto].
    rewrite form_call by assumption. unfold ok.
    destruct (background_of (o_bg_type o) (o_bg o)) as [p|c|u|] eqn:Hb;
      [destruct (readable os p) eqn:Hp|..].
    2:{ exists []. rewrite app_nil_r. split; [reflexivity|].
        split; [constructor|]. split; [intros _ ->; contradiction|].
        intros _ _ _ p' [= <-]. congruence. }
    - after_send new Hh Hcl.
      exists (mark_closed (new_handle p RB) :: new).
      cbn [closing fst snd set_handles handles]. rewrite Hh.
      cbn [opened set_handles handles]. rewrite close_one.
      split; [reflexivity|]. split; [repeat constructor; exact Hcl|].
      split; [intros _ ->; contradiction|].
      intros _ _ _ p' [= <-] _. apply list_elem_of_here.
    - after_send new Hh Hcl. exists new. split; [exact Hh|].
      split; [exact Hcl|]. split; [intros _ ->; contradiction|].
      intros _ _ _ p'. discriminate.
    - after_send new Hh Hcl. exists new. split; [exact Hh|].
      split; [exact Hcl|]. split; [intros _ ->; contradiction|].
      intros _ _ _ p'. discriminate.
    - after_send new Hh Hcl. exists new. split; [exact Hh|].
      split; [exact Hcl|]. split; [intros _ ->; contradiction|].
      intros _ _ _ p'. discriminate. }
  destruct e; [|apply Hform; discriminate..].
  rewrite (file_call _ _ _ _ _ Hv). unfold ok.
  destruct (readable os img) eqn:Hi.
  2:{ exists []. rewrite app_nil_r. split; [reflexivity|].
      split; [constructor|]. split; [discriminate|].
      intros _ _ H. specialize (H eq_refl). discriminate. }
  destruct (background_of (o_bg_type o) (o_bg o)) as [p|c|u|] eqn:Hb;
    [destruct (readable os p) eqn:Hp|..].
  2:{ exists [mark_closed (new_handle img RB)].
      cbn [closing fst snd set_handles opened handles].
      rewrite close_at by reflexivity.
      split; [reflexivity|]. split; [repeat constructor|].
      split; [intros; apply list_elem_of_here|].
      intros _ _ _ p' [= <-]. congruence. }
  - after_send new Hh Hcl.
    exists (mark_closed (new_handle img RB)
              :: mark_closed (new_handle p RB) :: new).
    cbn [closing fst snd set_handles handles]. rewrite Hh.
    cbn [opened set_handles handles]. rewrite close_two.
    split; [reflexivity|]. split; [repeat constructor; exact Hcl|].
    split; [intros; apply list_elem_of_here|].
    intros _ _ _ p' [= <-] _. apply list_elem_of_further, list_elem_of_here.
  - after_send new Hh Hcl. exists (mark_closed (new_handle img RB) :: new).
    cbn [closing fst snd set_handles handles]. rewrite Hh.
    cbn [opened set_handles handles]. rewrite close_one.
    split; [reflexivity|]. split; [repeat constructor; exact Hcl|].
    split; [intros; apply list_elem_of_here|]. intros _ _ _ p'. discriminate.
  - after_send new Hh Hcl. exists (mark_closed (new_handle img RB) :: new).
    cbn [closing fst snd set_handles handles]. rewrite Hh.
    cbn [opened set_handles handles]. rewrite close_one.
    split; [reflexivity|]. split; [repeat constructor; exact Hcl|].
    split; [intros; apply list_elem_of_here|]. intros _ _ _ p'. discriminate.
  - after_send new Hh Hcl. exists (mark_closed (new_handle img RB) :: new).
    cbn [closing fst snd set_handles handles]. rewrite Hh.
    cbn [opened set_handles handles]. rewrite close_one.
    split; [reflexivity|]. split; [repeat constructor; exact Hcl|].
    split; [intros; apply list_elem_of_here|]. intros _ _ _ p'. discriminate.
Qed.

(** ** Outcomes of a call that reaches the post *)

Lemma call_run_out os e self img o w :
  valid o -> (e <> ImgFile -> consumable o) ->
  inputs_readable os e img o ->
  fst (call os e self img o w)
  = fst (send_and_handle os self (request_of e self img o w)
           (o_new_file_name o) (o_return_bytes o)
           (open_inputs e img (background_of (o_bg_type o) (o_bg o)) w))
  /\ log (snd (call os e self img o w))
     = log (snd (send_and_handle os self (request_of e self img o w)
                   (o_new_file_name o) (o_return_bytes o)
                   (open_inputs e img
                      (background_of (o_bg_type o) (o_bg o)) w)))
  /\ fs (snd (call os e self img o w))
     = fs (snd (send_and_handle os self (request_of e self img o w)
                  (o_new_file_name o) (o_return_bytes o)
                  (open_inputs e img
                     (background_of (o_bg_type o) (o_bg o)) w))).
Proof.
  intros Hv Hc Hr. rewrite call_run by assumption. cbn [fst snd].
  split; [reflexivity|]. split; apply close_inputs_same.
Qed.

Lemma error_status_iff response :
  is_error_status response = true <-> 400 <= status_code response < 600.
Proof.
  unfold is_error_status. rewrite andb_true_iff, Z.leb_le, Z.ltb_lt.
  reflexivity.
Qed.

Lemma not_error_status response :
  ~ 400 <= status_code response < 600 -> is_error_status response = false.
Proof.
  intros H. destruct (is_error_status response) eqn:E; [|reflexivity].
  apply error_status_iff in E. contradiction.
Qed.

(** C9. The file operation does not ask for a way to consume the result:
    with [new_file_name] set to [None] and [return_bytes] false it raises no
    [ValueError] on valid options, it still posts its request once the
    inputs open, and on a response that [raise_for_status] accepts it
    returns [None], having written no file and logged nothing. *)
Theorem file_operation_without_consumer os self img o w :
  o_new_file_name o = None -> o_return_bytes o = false -> valid o ->
  (forall msg, fst (call os ImgFile self img o w) <> inl (ValueError msg))
  /\ (inputs_readable os ImgFile img o ->
      posts (snd (call os ImgFile self img o w))
      = posts w ++ [request_of ImgFile self img o w]
      /\ forall response,
           _session self (request_of ImgFile self img o w)
           = Responds response ->
           ~ 400 <= status_code response < 600 ->
           fst (call os ImgFile self img o w) = inr None
           /\ fs (snd (call os ImgFile self img o w)) = fs w
           /\ log (snd (call os ImgFile self img o w)) = log w).
Proof.
  intros Hn Hb Hv.
  assert (Hc : ImgFile <> ImgFile -> consumable o) by contradiction.
  split; [intros msg; apply call_no_value_error; assumption|].
  intros Hr. split; [apply call_run_posts; assumption|].
  intros response Hs He. apply not_error_status in He.
  destruct (call_run_out os ImgFile self img o w Hv Hc Hr) as (-> & -> & ->).
  rewrite Hn, Hb.
  rewrite (send_no_file os self _ None false _ _ Hs He eq_refl).
  cbn [fst snd posted set_posts fs log].
  repeat split; apply open_inputs_same.
Qed.

(** C1, as the code has it. Once the post has returned a response that is
    not 2xx: with a status from 400 to 599, [raise_for_status] raises
    [HTTPError] to the caller and nothing is logged or written; with any
    other status, a non-empty [new_file_name] and a body whose reason can be
    read, the destination, a reason and the status are logged, no file is
    written, and the call returns normally, with the content when
    [return_bytes] is set and [None] otherwise. The reason logged is the
    one read from the body, "unknown error" or the first title in lower
    case, when that title is a string of ASCII characters. *)
Theorem error_status_handling os e self img o w response :
  valid o -> (e <> ImgFile -> consumable o) ->
  inputs_readable os e img o ->
  _session self (request_of e self img o w) = Responds response ->
  ~ 200 <= status_code response < 300 ->
  (400 <= status_code response < 600 ->
   fst (call os e self img o w) = inl (HTTPError (status_code response))
   /\ log (snd (call os e self img o w)) = log w
   /\ fs (snd (call os e self img o w)) = fs w)
  /\ (~ 400 <= status_code response < 600 ->
      forall name reason,
        o_new_file_name o = Some name -> name <> "" ->
        reads_reason response reason ->
        fst (call os e self img o w)
        = inr (if o_return_bytes o then Some (content response) else None)
        /\ (exists logged,
              log (snd (call os e self img o w))
              = log w ++ [save_error name logged (status_code response)]
              /\ (ascii_title response -> logged = reason))
        /\ fs (snd (call os e self img o w)) = fs w).
Proof.
  intros Hv Hc Hr Hs H2.
  destruct (call_run_out os e self img o w Hv Hc Hr) as (-> & -> & ->).
  destruct (open_inputs_same e img (background_of (o_bg_type o) (o_bg o)) w)
    as (_ & Hl & Hf).
  split.
  - intros He. apply error_status_iff in He.
    rewrite (send_http_error _ _ _ _ _ _ _ Hs He). cbn [fst snd].
    repeat split; assumption.
  - intros He name reason Hn Hne Hrd. apply not_error_status in He.
    rewrite Hn, (send_file _ _ _ _ _ _ _ Hs He Hne).
    rewrite (output_file_error os response name reason) by (assumption || lia).
    cbn [fst snd log fs].
    split; [reflexivity|]. split; [|cbn [posted set_posts fs]; exact Hf].
    exists reason. cbn [posted set_posts log]. rewrite Hl.
    split; [reflexivity | intros _; reflexivity].
Qed.

(** C7, as the code has it. On a response with status 200 the call returns
    normally, with exactly the content when [return_bytes] is set and
    [None] otherwise. With a non-empty [new_file_name] the same bytes end
    up in that file when the write goes through; when it does not, the
    failure is logged and the call still returns. With no file name nothing
    is written or logged. *)
Theorem success_round_trip os e self img o w response :
  valid o -> (e <> ImgFile -> consumable o) ->
  inputs_readable os e img o ->
  _session self (request_of e self img o w) = Responds response ->
  status_code response = 200 ->
  fst (call os e self img o w)
  = inr (if o_return_bytes o then Some (content response) else None)
  /\ (forall name,
        o_new_file_name o = Some name -> name <> "" ->
        match disk os name with
        | WriteOk =>
            fs (snd (call os e self img o w)) !! name
            = Some (content response)
            /\ log (snd (call os e self img o w)) = log w
        | _ =>
            log (snd (call os e self img o w))
            = log w ++ [write_error name (OSError name)]
        end)
  /\ (o_new_file_name o = None \/ o_new_file_name o = Some "" ->
      fs (snd (call os e self img o w)) = fs w
      /\ log (snd (call os e self img o w)) = log w).
Proof.
  intros Hv Hc Hr Hs H2.
  assert (He : is_error_status response = false).
  { apply not_error_status. lia. }
  destruct (call_run_out os e self img o w Hv Hc Hr) as (-> & -> & ->).
  destruct (open_inputs_same e img (background_of (o_bg_type o) (o_bg o)) w)
    as (_ & Hl & Hf).
  assert (Hcases : truthy_str (o_new_file_name o) = false
                   \/ exists name, o_new_file_name o = Some name /\ name <> "").
  { destruct (o_new_file_name o) as [name|]; [|left; reflexivity].
    unfold truthy_str. case_bool_decide; [left; reflexivity|].
    right. exists name. split; [reflexivity | assumption]. }
  destruct Hcases as [Hn|(name & Hn & Hne)].
  - rewrite (send_no_file _ _ _ _ _ _ _ Hs He Hn). cbn [fst snd].
    split; [reflexivity|]. split.
    + intros name Hname Hne. rewrite Hname in Hn. unfold truthy_str in Hn.
      rewrite (bool_decide_eq_false_2 _ Hne) in Hn. discriminate.
    + intros _. split; assumption.
  - rewrite Hn, (send_file _ _ _ _ _ _ _ Hs He Hne).
    rewrite (output_file_ok _ _ _ _ H2). cbn [fst snd].
    split; [reflexivity|]. split.
    + intros name' [= <-] _.
      destruct (disk os name); cbn [fs log posted set_posts];
        [split; [apply lookup_insert_eq | assumption] | congruence..].
    + intros [H|H]; [discriminate|]. injection H as ->. contradiction.
Qed.

(** ** Form data *)

(** C4. In the form data of [_build_common_data], [add_shadow] and
    [semitransparency] are the string "true" when the flag is truthy and the
    string "false" otherwise, never a boolean; [crop] is "true" exactly when
    a non-empty crop margin is given; and [crop_margin] is the crop value as
    it was passed. *)
Theorem form_flags size type type_level format roi crop scale position
    channels shadow semitransparency :
  let d := _build_common_data size type type_level format roi crop scale
             position channels shadow semitransparency in
  d !! "add_shadow" = Some (VStr (if truthy shadow then "true" else "false"))
  /\ d !! "semitransparency"
     = Some (VStr (if truthy semitransparency then "true" else "false"))
  /\ (exists c, d !! "crop" = Some (VStr c)
                /\ (c = "true" \/ c = "false")
                /\ (c = "true" <-> exists m, crop = Some m /\ m <> ""))
  /\ d !! "crop_margin" = Some (of_opt crop).
Proof.
  cbv zeta. unfold _build_common_data, py_bool_str.
  split; [|split; [|split]].
  - simplify_map_eq. destruct (truthy shadow); reflexivity.
  - simplify_map_eq. destruct (truthy semitransparency); reflexivity.
  - exists (if truthy_str crop then "true" else "false").
    split; [simplify_map_eq; destruct (truthy_str crop); reflexivity|].
    split; [destruct (truthy_str crop); tauto|].
    unfold truthy_str. destruct crop as [m|].
    + case_bool_decide; cbn [negb]; split.
      * discriminate.
      * intros (m' & [= <-] & Hm). contradiction.
      * intros _. exists m. split; [reflexivity | assumption].
      * reflexivity.
    + split; [discriminate|]. intros (m & Hm & _). discriminate.
  - simplify_map_eq. reflexivity.
Qed.

(** ** The error payload *)

(** The error body of the documented shape is logged under its first title
    in lower case, and a body that is not JSON under the generic reason. *)
Example titled_errors_logged :
  _output_file open_host (json_response 400 titled_errors) "no-bg.png"
    empty_world
  = (inr tt,
     {| fs := ∅; handles := [];
        log := [save_error "no-bg.png" "foo bar" 400]; posts := [] |}).
Proof. reflexivity. Qed.

Example not_json_logged :
  _output_file open_host (binary_response 500) "no-bg.png" empty_world
  = (inr tt,
     {| fs := ∅; handles := [];
        log := [save_error "no-bg.png" "unknown error" 500]; posts := [] |}).
Proof. reflexivity. Qed.

(** C6. A body that parses as JSON but whose [errors] is not a list of
    objects does not fall back to the generic reason: [_output_file] raises
    [AttributeError] and logs nothing, and the URL operation that received
    the response, here with status 300, raises it to its caller. *)
Theorem untitled_errors_not_logged :
  _output_file open_host (json_response 300 untitled_errors) "no-bg.png"
    empty_world
  = (inl (AttributeError "get"), empty_world)
  /\ fst (call open_host ImgUrl
            (client_answering (json_response 300 untitled_errors))
            "https://example.org/cat.png" defaults empty_world)
     = inl (AttributeError "get")
  /\ log (snd (call open_host ImgUrl
                 (client_answering (json_response 300 untitled_errors))
                 "https://example.org/cat.png" defaults empty_world))
     = [].
Proof. repeat split; vm_compute; reflexivity. Qed.

(** ** Instances *)

Lemma valid_defaults : valid defaults.
Proof.
  unfold valid, valid_options, defaults. cbn.
  rewrite !elem_of_cons. tauto.
Qed.

Lemma consumable_defaults : consumable defaults.
Proof. right. discriminate. Qed.

Lemma open_host_reads e img o : inputs_readable open_host e img o.
Proof. split; intros; reflexivity. Qed.

(** A response with status 404 is raised to the caller of the URL operation
    as [HTTPError]; nothing is logged and the call does not return. *)
Lemma not_found_is_raised :
  fst (call open_host ImgUrl (client_answering (binary_response 404))
         "https://example.org/cat.png" defaults empty_world)
  = inl (HTTPError 404)
  /\ log (snd (call open_host ImgUrl (client_answering (binary_response 404))
                 "https://example.org/cat.png" defaults empty_world))
     = []
  /\ ~ (exists v,
         fst (call open_host ImgUrl (client_answering (binary_response 404))
                "https://example.org/cat.png" defaults empty_world)
         = inr v).
Proof.
  split; [vm_compute; reflexivity|]. split; [vm_compute; reflexivity|].
  intros (v & Hv). vm_compute in Hv. discriminate.
Qed.

(** A response with status 201 has its content returned but not written:
    the file operation with the default file name leaves no file and logs
    an error. *)
Lemma created_is_not_written :
  fs (snd (call open_host ImgFile (client_answering (binary_response 201))
             "cat.png" defaults empty_world)) !! "no-bg.png"
  = None
  /\ fs (snd (call open_host ImgFile (client_answering (binary_response 201))
                "cat.png" defaults empty_world)) !! "no-bg.png"
     <> Some sample_content
  /\ log (snd (call open_host ImgFile
                 (client_answering (binary_response 201))
                 "cat.png" defaults empty_world))
     = [save_error "no-bg.png" "unknown error" 201].
Proof.
  split; [vm_compute; reflexivity|]. split; [|vm_compute; reflexivity].
  intros H. vm_compute in H. discriminate.
Qed.

Lemma invalid_option_rejected_witness :
  (o_size (with_size "huge" defaults)
     ∉ ["auto"; "preview"; "small"; "regular"; "medium"; "hd"; "full"; "4k"])
  /\ exists msg,
       call open_host ImgFile (client_answering (binary_response 200))
         "cat.png" (with_size "huge" defaults) empty_world
       = (inl (ValueError msg), empty_world)
       /\ posts (snd (call open_host ImgFile
                        (client_answering (binary_response 200))
                        "cat.png" (with_size "huge" defaults) empty_world))
          = posts empty_world.
Proof.
  assert (H : o_size (with_size "huge" defaults)
                ∉ ["auto"; "preview"; "small"; "regular"; "medium"; "hd";
                   "full"; "4k"]).
  { cbn. rewrite !elem_of_cons, elem_of_nil. intros H.
    repeat (destruct H as [H|H]; [discriminate|]). exact H. }
  split; [exact H|].
  apply (invalid_option_rejected open_host ImgFile
           (client_answering (binary_response 200)) "cat.png"
           (with_size "huge" defaults) empty_world).
  left. exact H.
Defined.

Lemma consumption_mode_required_witness :
  (ImgUrl = ImgUrl \/ ImgUrl = Base64Img)
  /\ (exists msg,
        call open_host ImgUrl (client_answering (binary_response 200))
          "https://example.org/cat.png" (with_output None false defaults)
          empty_world
        = (inl (ValueError msg), empty_world))
  /\ fst (call open_host ImgUrl (client_answering (binary_response 200))
            "https://example.org/cat.png" (with_output None true defaults)
            empty_world)
     <> inl (ValueError
               "Either provide new_file_name or set return_bytes=True")
  /\ posts (snd (call open_host ImgUrl
                   (client_answering (binary_response 200))
                   "https://example.org/cat.png"
                   (with_output None true defaults) empty_world))
     = posts empty_world
       ++ [request_of ImgUrl (client_answering (binary_response 200))
             "https://example.org/cat.png" (with_output None true defaults)
             empty_world].
Proof.
  split; [left; reflexivity|].
  split.
  - apply (consumption_mode_required open_host ImgUrl
             (client_answering (binary_response 200))
             "https://example.org/cat.png" (with_output None false defaults)
             empty_world (or_introl eq_refl)); reflexivity.
  - destruct (consumption_mode_required open_host ImgUrl
                (client_answering (binary_response 200))
                "https://example.org/cat.png" (with_output None true defaults)
                empty_world (or_introl eq_refl)) as (_ & H2 & H3).
    split; [apply H2; right; reflexivity|].
    apply H3; [right; reflexivity | exact valid_defaults
              | apply open_host_reads].
Defined.

Lemma file_operation_without_consumer_witness :
  o_new_file_name (with_output None false defaults) = None
  /\ o_return_bytes (with_output None false defaults) = false
  /\ valid (with_output None false defaults)
  /\ fst (call open_host ImgFile (client_answering (binary_response 200))
            "cat.png" (with_output None false defaults) empty_world)
     = inr None
  /\ fs (snd (call open_host ImgFile (client_answering (binary_response 200))
                "cat.png" (with_output None false defaults) empty_world))
     = fs empty_world
  /\ log (snd (call open_host ImgFile
                 (client_answering (binary_response 200))
                 "cat.png" (with_output None false defaults) empty_world))
     = log empty_world.
Proof.
  split; [reflexivity|]. split; [reflexivity|]. split; [exact valid_defaults|].
  destruct (file_operation_without_consumer open_host
              (client_answering (binary_response 200)) "cat.png"
              (with_output None false defaults) empty_world
              eq_refl eq_refl valid_defaults) as (_ & H).
  destruct (H (open_host_reads _ _ _)) as (_ & H').
  apply (H' (binary_response 200) eq_refl).
  cbn. lia.
Defined.

Lemma error_status_handling_witness :
  valid defaults
  /\ inputs_readable open_host Base64Img "aGVsbG8=" defaults
  /\ ~ 200 <= status_code (binary_response 304) < 300
  /\ fst (call open_host Base64Img (client_answering (binary_response 304))
            "aGVsbG8=" defaults empty_world)
     = inr None
  /\ log (snd (call open_host Base64Img
                 (client_answering (binary_response 304))
                 "aGVsbG8=" defaults empty_world))
     = log empty_world ++ [save_error "no-bg.png" "unknown error" 304]
  /\ fs (snd (call open_host Base64Img
                (client_answering (binary_response 304))
                "aGVsbG8=" defaults empty_world))
     = fs empty_world.
Proof.
  assert (H2 : ~ 200 <= status_code (binary_response 304) < 300)
    by (cbn; lia).
  split; [exact valid_defaults|]. split; [apply open_host_reads|].
  split; [exact H2|].
  destruct (error_status_handling open_host Base64Img
              (client_answering (binary_response 304)) "aGVsbG8=" defaults
              empty_world (binary_response 304) valid_defaults
              (fun _ => consumable_defaults)
              (open_host_reads _ _ _) eq_refl H2) as (_ & H).
  destruct (H ltac:(cbn; lia) "no-bg.png" "unknown error" eq_refl
              ltac:(discriminate)
              (reason_not_json (binary_response 304) eq_refl))
    as (Hres & (logged & Hlog & Hascii) & Hfs).
  split; [exact Hres|]. split; [|exact Hfs].
  rewrite Hlog, Hascii; [reflexivity|].
  intros t Ht. discriminate Ht.
Defined.

Lemma success_round_trip_witness :
  valid (with_output (Some "out.png") true defaults)
  /\ inputs_readable open_host ImgFile "cat.png"
       (with_output (Some "out.png") true defaults)
  /\ status_code (binary_response 200) = 200
  /\ fst (call open_host ImgFile (client_answering (binary_response 200))
            "cat.png" (with_output (Some "out.png") true defaults)
            empty_world)
     = inr (Some sample_content)
  /\ fs (snd (call open_host ImgFile
                (client_answering (binary_response 200))
                "cat.png" (with_output (Some "out.png") true defaults)
                empty_world)) !! "out.png"
     = Some sample_content.
Proof.
  split; [exact valid_defaults|]. split; [apply open_host_reads|].
  split; [reflexivity|].
  destruct (success_round_trip open_host ImgFile
              (client_answering (binary_response 200)) "cat.png"
              (with_output (Some "out.png") true defaults) empty_world
              (binary_response 200) valid_defaults
              (fun H => ltac:(contradiction))
              (open_host_reads _ _ _) eq_refl eq_refl) as (H1 & H2 & _).
  split; [exact H1|].
  apply (H2 "out.png" eq_refl ltac:(discriminate)).
Defined.

Lemma background_silently_ignored_witness :
  (o_bg_type (with_background (Some "gradient") (Some "blue") defaults)
     <> Some "path"
   /\ o_bg_type (with_background (Some "gradient") (Some "blue") defaults)
      <> Some "url"
   /\ o_bg_type (with_background (Some "gradient") (Some "blue") defaults)
      <> Some "color")
  /\ call open_host ImgUrl (client_answering (binary_response 200))
       "https://example.org/cat.png"
       (with_background (Some "gradient") (Some "blue") defaults) empty_world
     = call open_host ImgUrl (client_answering (binary_response 200))
         "https://example.org/cat.png"
         (without_background
            (with_background (Some "gradient") (Some "blue") defaults))
         empty_world.
Proof.
  assert (H : o_bg_type (with_background (Some "gradient") (Some "blue")
                           defaults) <> Some "path"
              /\ o_bg_type (with_background (Some "gradient") (Some "blue")
                              defaults) <> Some "url"
              /\ o_bg_type (with_background (Some "gradient") (Some "blue")
                              defaults) <> Some "color").
  { repeat split; discriminate. }
  split; [exact H|].
  apply (background_silently_ignored open_host ImgUrl
           (client_answering (binary_response 200))
           "https://example.org/cat.png"
           (with_background (Some "gradient") (Some "blue") defaults)
           empty_world (or_introl H)).
Defined.

Lemma one_background_field_witness :
  exists r,
    posts (snd (call open_host ImgUrl (client_answering (binary_response 200))
                  "https://example.org/cat.png"
                  (with_background (Some "color") (Some "81d4fa") defaults)
                  empty_world))
    = posts empty_world ++ [r]
    /\ bg_fields r = ["bg_color"]
    /\ req_data r !! "bg_color" = Some (VStr "81d4fa").
Proof.
  destruct (one_background_field open_host ImgUrl
              (client_answering (binary_response 200))
              "https://example.org/cat.png"
              (with_background (Some "color") (Some "81d4fa") defaults)
              empty_world) as (sent & Hp & _ & Hl & Hr).
  specialize (Hl valid_defaults (fun _ => consumable_defaults)
                (open_host_reads _ _ _)).
  destruct sent as [|r [|r' sent]]; try discriminate Hl.
  exists r. split; [exact Hp|].
  destruct (Hr r (list_elem_of_here r [])) as (H & _).
  destruct (H "81d4fa" eq_refl ltac:(discriminate)) as (_ & Hc & _).
  apply Hc. reflexivity.
Defined.

Lemma handles_closed_witness :
  exists new,
    handles (snd (call open_host ImgFile client_offline "cat.png"
                    (with_background (Some "path") (Some "beach.png")
                       defaults)
                    empty_world))
    = handles empty_world ++ new
    /\ Forall closed new
    /\ mark_closed (new_handle "cat.png" RB) ∈ new
    /\ mark_closed (new_handle "beach.png" RB) ∈ new.
Proof.
  destruct (handles_closed open_host ImgFile client_offline "cat.png"
              (with_background (Some "path") (Some "beach.png") defaults)
              empty_world) as (new & H1 & H2 & H3 & H4).
  exists new. split; [exact H1|]. split; [exact H2|]. split.
  - apply H3; [exact valid_defaults | reflexivity | reflexivity].
  - apply (H4 valid_defaults (fun _ => consumable_defaults)
             (fun _ => eq_refl) "beach.png"); reflexivity.
Defined.

(** The handles of the file operation are closed when the post raises, when
    the server answers with an error status, and when the call returns. *)
Example handles_on_every_exit :
  handles (snd (call open_host ImgFile client_offline "cat.png"
                  (with_background (Some "path") (Some "beach.png") defaults)
                  empty_world))
  = [mark_closed (new_handle "cat.png" RB);
     mark_closed (new_handle "beach.png" RB)]
  /\ handles (snd (call open_host ImgFile
                     (client_answering (binary_response 500)) "cat.png"
                     (with_background (Some "path") (Some "beach.png")
                        defaults)
                     empty_world))
     = [mark_closed (new_handle "cat.png" RB);
        mark_closed (new_handle "beach.png" RB)]
  /\ handles (snd (call open_host ImgFile
                     (client_answering (binary_response 200)) "cat.png"
                     (with_background (Some "path") (Some "beach.png")
                        defaults)
                     empty_world))
     = [mark_closed (new_handle "cat.png" RB);
        mark_closed (new_handle "beach.png" RB);
        mark_closed (new_handle "no-bg.png" WB)].
Proof. repeat split; vm_compute; reflexivity. Qed.

(** A write that fails is logged and the call returns. *)
Example failed_write_is_logged :
  fst (call read_only_host ImgUrl (client_answering (binary_response 200))
         "https://example.org/cat.png" defaults empty_world)
  = inr None
  /\ log (snd (call read_only_host ImgUrl
                 (client_answering (binary_response 200))
                 "https://example.org/cat.png" defaults empty_world))
     = [write_error "no-bg.png" (OSError "no-bg.png")].
Proof. split; vm_compute; reflexivity. Qed.

(** * Further properties *)

(** ** What a call leaves of the files and the log *)

Lemma output_file_effect os response name w :
  (forall k, k <> name ->
     fs (snd (_output_file os response name w)) !! k = fs w !! k)
  /\ (exists l, log (snd (_output_file os response name w)) = log w ++ l
                /\ (length l <= 1)%nat)
  /\ (status_code response <> 200 ->
      fs (snd (_output_file os response name w)) = fs w).
Proof.
  destruct (Z.eq_dec (status_code response) 200) as [E|E].
  - rewrite (output_file_ok _ _ _ _ E). cbn [fst snd].
    split; [|split; [|contradiction]].
    + intros k Hk. destruct (disk os name); cbn [fs];
        rewrite ?lookup_insert_ne by congruence; reflexivity.
    + destruct (disk os name); cbn [log].
      * exists []. rewrite app_nil_r. split; [reflexivity | cbn; lia].
      * eexists. split; [reflexivity | cbn; lia].
      * eexists. split; [reflexivity | cbn; lia].
  - unfold _output_file.
    destruct (Z.eqb_spec (status_code response) codes_ok) as [E'|_];
      [contradiction|].
    cbv zeta. rewrite bind_run.
    destruct (read_reason_any response w) as (x & -> & _).
    destruct x as [e|reason]; cbn [fst snd fs log].
    + split; [reflexivity|]. split; [|reflexivity].
      exists []. rewrite app_nil_r. split; [reflexivity | cbn; lia].
    + split; [reflexivity|]. split; [|reflexivity].
      eexists. split; [reflexivity | cbn; lia].
Qed.

Lemma send_and_handle_effect os self r nfn rb w :
  (forall k, nfn <> Some k ->
     fs (snd (send_and_handle os self r nfn rb w)) !! k = fs w !! k)
  /\ (exists l, log (snd (send_and_handle os self r nfn rb w)) = log w ++ l
                /\ (length l <= 1)%nat)
  /\ ((forall response, _session self r = Responds response ->
                        status_code response <> 200) ->
      fs (snd (send_and_handle os self r nfn rb w)) = fs w).
Proof.
  assert (Hnil : exists l : list log_record,
             log (posted r w) = log w ++ l /\ (length l <= 1)%nat).
  { exists []. rewrite app_nil_r. split; [reflexivity | cbn; lia]. }
  destruct (_session self r) as [msg|response] eqn:Hs.
  { rewrite (send_raises _ _ _ _ _ _ _ Hs). cbn [fst snd].
    repeat split; assumption. }
  destruct (is_error_status response) eqn:He.
  { rewrite (send_http_error _ _ _ _ _ _ _ Hs He). cbn [fst snd].
    repeat split; assumption. }
  destruct (truthy_str nfn) eqn:Hn.
  - destruct nfn as [name|]; [|discriminate]. unfold truthy_str in Hn.
    case_bool_decide; [discriminate|].
    rewrite (send_file _ _ _ _ _ _ _ Hs He) by assumption. cbn [fst snd].
    destruct (output_file_effect os response name (posted r w))
      as (Hf & Hl & Hk).
    split; [|split].
    + intros k Hne. apply Hf. congruence.
    + exact Hl.
    + intros Hall. apply Hk, Hall. reflexivity.
  - rewrite (send_no_file _ _ _ _ _ _ _ Hs He Hn). cbn [fst snd].
    repeat split; assumption.
Qed.

(** X1. A call writes no file other than [new_file_name] and adds at most
    one record to the log, after the records that were there. *)
Theorem only_named_file_written os e self img o w :
  (forall k, o_new_file_name o <> Some k ->
     fs (snd (call os e self img o w)) !! k = fs w !! k)
  /\ exists l, log (snd (call os e self img o w)) = log w ++ l
               /\ (length l <= 1)%nat.
Proof.
  assert (Hnil : exists l : list log_record,
             log w = log w ++ l /\ (length l <= 1)%nat).
  { exists []. rewrite app_nil_r. split; [reflexivity | cbn; lia]. }
  destruct (call_cases os e img o) as [H|[(Hv & Hc & Hr)|(Hv & Hc & Hr)]].
  - destruct (call_rejected os e self img o w H) as (msg & ->).
    split; [reflexivity | exact Hnil].
  - destruct (call_stops os e self img o w Hv Hc Hr)
      as (p & _ & _ & Hl & Hf & _).
    rewrite Hl, Hf. split; [reflexivity | exact Hnil].
  - destruct (call_run_out os e self img o w Hv Hc Hr) as (_ & -> & ->).
    destruct (open_inputs_same e img (background_of (o_bg_type o) (o_bg o)) w)
      as (_ & Hl & Hf).
    destruct (send_and_handle_effect os self (request_of e self img o w)
                (o_new_file_name o) (o_return_bytes o)
                (open_inputs e img (background_of (o_bg_type o) (o_bg o)) w))
      as (Hk & Hlog & _).
    rewrite Hl, Hf in *. split; assumption.
Qed.

(** X2. Unless the server answers with status 200, a call writes no file at
    all. *)
Theorem no_write_without_ok os e self img o w :
  (forall r response, _session self r = Responds response ->
                      status_code response <> 200) ->
  fs (snd (call os e self img o w)) = fs w.
Proof.
  intros Hall.
  destruct (call_cases os e img o) as [H|[(Hv & Hc & Hr)|(Hv & Hc & Hr)]].
  - destruct (call_rejected os e self img o w H) as (msg & ->). reflexivity.
  - destruct (call_stops os e self img o w Hv Hc Hr)
      as (p & _ & _ & _ & Hf & _). exact Hf.
  - destruct (call_run_out os e self img o w Hv Hc Hr) as (_ & _ & ->).
    destruct (open_inputs_same e img (background_of (o_bg_type o) (o_bg o)) w)
      as (_ & _ & Hf).
    destruct (send_and_handle_effect os self (request_of e self img o w)
                (o_new_file_name o) (o_return_bytes o)
                (open_inputs e img (background_of (o_bg_type o) (o_bg o)) w))
      as (_ & _ & Hk).
    rewrite Hk, Hf; [reflexivity|]. apply Hall.
Qed.

(** ** Failures before and in the post *)

(** X3. An exception of the post reaches the caller as it is: the request
    has been handed to the session once, nothing is logged and nothing is
    written. *)
Theorem transport_failure_propagates os e self img o w msg :
  valid o -> (e <> ImgFile -> consumable o) ->
  inputs_readable os e img o ->
  _session self (request_of e self img o w) = Raises msg ->
  fst (call os e self img o w) = inl (RequestException msg)
  /\ posts (snd (call os e self img o w))
     = posts w ++ [request_of e self img o w]
  /\ log (snd (call os e self img o w)) = log w
  /\ fs (snd (call os e self img o w)) = fs w.
Proof.
  intros Hv Hc Hr Hs.
  split; [|split; [apply call_run_posts; assumption|]].
  - destruct (call_run_out os e self img o w Hv Hc Hr) as (-> & _).
    rewrite (send_raises _ _ _ _ _ _ _ Hs). reflexivity.
  - destruct (call_run_out os e self img o w Hv Hc Hr) as (_ & -> & ->).
    rewrite (send_raises _ _ _ _ _ _ _ Hs). cbn [snd posted set_posts log fs].
    split; apply open_inputs_same.
Qed.

(** X4. An input that does not open stops the call with the [OSError] of
    that file before anything is posted, logged or written: the image of
    the file operation first, then the background file of any operation. *)
Theorem input_open_failure os e self img o w :
  valid o -> (e <> ImgFile -> consumable o) ->
  (e = ImgFile -> readable os img = false ->
   call os e self img o w = (inl (OSError img), w))
  /\ (forall p,
        (e = ImgFile -> readable os img = true) ->
        background_of (o_bg_type o) (o_bg o) = BgPath p ->
        readable os p = false ->
        fst (call os e self img o w) = inl (OSError p)
        /\ posts (snd (call os e self img o w)) = posts w
        /\ log (snd (call os e self img o w)) = log w
        /\ fs (snd (call os e self img o w)) = fs w).
Proof.
  intros Hv Hc. split.
  - intros -> Hi. rewrite (file_call _ _ _ _ _ Hv), Hi. reflexivity.
  - intros p Hi Hb Hp. destruct e.
    + rewrite (file_call _ _ _ _ _ Hv), (Hi eq_refl), Hb, Hp.
      repeat split.
    + rewrite form_call by (try apply Hc; discriminate || assumption).
      rewrite Hb, Hp. repeat split.
    + rewrite form_call by (try apply Hc; discriminate || assumption).
      rewrite Hb, Hp. repeat split.
Qed.

(** ** The request *)

(** X5. Every request of a client built by [__init__] goes to the one
    endpoint, carries the API key in the [X-Api-Key] header and nowhere in
    the form, and has the timeout given at construction, or 30 seconds when
    none was given. *)
Theorem request_envelope os e api_key timeout session img o w :
  exists sent,
    posts (snd (call os e (__init__ api_key timeout session) img o w))
    = posts w ++ sent
    /\ forall r, r ∈ sent ->
         req_url r = "https://api.remove.bg/v1.0/removebg"
         /\ req_headers r = {["X-Api-Key" := api_key]}
         /\ req_data r !! "X-Api-Key" = None
         /\ req_timeout r = match timeout with Some t => t | None => 30 end.
Proof.
  destruct (call_posts os e (__init__ api_key timeout session) img o w)
    as (sent & Hp & Hs).
  exists sent. split; [exact Hp|]. intros r Hin.
  destruct Hs as [->| ->]; [inversion Hin|].
  apply list_elem_of_singleton in Hin. subst r.
  unfold request_of, mk_request.
  cbn [req_url req_headers req_data req_timeout __init__ __api_key _timeout].
  split; [reflexivity|]. split; [reflexivity|].
  split; [|destruct timeout; reflexivity].
  destruct (background_of (o_bg_type o) (o_bg o)), e; vm_compute; reflexivity.
Qed.

Lemma request_image_fields e self img o w :
  image_fields (request_of e self img o w) = [source_field e].
Proof.
  unfold request_of.
  destruct (background_of (o_bg_type o) (o_bg o)) as [p|c|u|], e;
    vm_compute; reflexivity.
Qed.

(** The handle that the file operation opens first is that of the image. *)
Lemma image_handle os self img o w :
  valid o -> readable os img = true ->
  handles (snd (call os ImgFile self img o w)) !! length (handles w)
  = Some (mark_closed (new_handle img RB)).
Proof.
  intros Hv Hi. rewrite (file_call _ _ _ _ _ Hv), Hi.
  destruct (background_of (o_bg_type o) (o_bg o)) as [p|c|u|];
    [destruct (readable os p)|..].
  2:{ cbn [closing fst snd set_handles opened handles].
      rewrite close_at by reflexivity. apply list_lookup_middle. reflexivity. }
  - after_send new Hh Hcl.
    cbn [closing fst snd set_handles handles]. rewrite Hh.
    cbn [opened set_handles handles]. rewrite close_two.
    apply list_lookup_middle. reflexivity.
  - after_send new Hh Hcl.
    cbn [closing fst snd set_handles handles]. rewrite Hh.
    cbn [opened set_handles handles]. rewrite close_one.
    apply list_lookup_middle. reflexivity.
  - after_send new Hh Hcl.
    cbn [closing fst snd set_handles handles]. rewrite Hh.
    cbn [opened set_handles handles]. rewrite close_one.
    apply list_lookup_middle. reflexivity.
  - after_send new Hh Hcl.
    cbn [closing fst snd set_handles handles]. rewrite Hh.
    cbn [opened set_handles handles]. rewrite close_one.
    apply list_lookup_middle. reflexivity.
Qed.

(** X6. A request carries exactly one image source, under the field of the
    operation: the URL or the base64 string as given, or, for the file
    operation, a file part that is the handle opened on [img_file_path]. *)
Theorem one_image_source os e self img o w :
  exists sent,
    posts (snd (call os e self img o w)) = posts w ++ sent
    /\ forall r, r ∈ sent ->
         image_fields r = [source_field e]
         /\ (e <> ImgFile -> req_data r !! source_field e = Some (VStr img))
         /\ (e = ImgFile ->
             exists fl h,
               req_files r = Some fl /\ fl !! "image_file" = Some h
               /\ handles (snd (call os e self img o w)) !! h
                  = Some (mark_closed (new_handle img RB))).
Proof.
  destruct (call_cases os e img o) as [H|[(Hv & Hc & Hr)|(Hv & Hc & Hr)]].
  - destruct (call_rejected os e self img o w H) as (msg & ->).
    exists []. rewrite app_nil_r. split; [reflexivity|].
    intros r Hin. inversion Hin.
  - destruct (call_stops os e self img o w Hv Hc Hr) as (p & _ & Hp & _).
    exists []. rewrite app_nil_r. split; [exact Hp|].
    intros r Hin. inversion Hin.
  - exists [request_of e self img o w].
    split; [apply call_run_posts; assumption|].
    intros r Hin. apply list_elem_of_singleton in Hin. subst r.
    split; [apply request_image_fields|]. split.
    + intros He. unfold request_of, mk_request. cbn [req_data].
      destruct (background_of (o_bg_type o) (o_bg o)), e;
        try contradiction; cbn [add_background form_data source_field];
        rewrite ?lookup_insert_ne by discriminate; apply lookup_insert_eq.
    + intros ->. destruct Hr as [Hi _]. specialize (Hi eq_refl).
      exists (default ∅ (files_of ImgFile
                           (background_of (o_bg_type o) (o_bg o))
                           (length (handles w)))),
             (length (handles w)).
      split; [|split; [|apply image_handle; assumption]].
      * unfold request_of, mk_request. cbn [req_files].
        destruct (background_of (o_bg_type o) (o_bg o)); reflexivity.
      * destruct (background_of (o_bg_type o) (o_bg o));
          cbn [files_of default from_option id];
          rewrite ?lookup_insert_ne by discriminate; apply lookup_insert_eq.
Qed.

Lemma common_data_dom size type type_level format roi crop scale position
    channels shadow semitransparency :
  dom (_build_common_data size type type_level format roi crop scale
         position channels shadow semitransparency) = common_fields.
Proof.
  unfold _build_common_data, common_fields.
  rewrite !dom_insert_L, dom_empty_L. cbn [list_to_set foldr].
  set_solver.
Qed.

Lemma request_data_common e self img o w k :
  k ∉ ["image_url"; "image_file_b64"; "bg_color"; "bg_image_url"] ->
  req_data (request_of e self img o w) !! k
  = _build_common_data (o_size o) (o_type o) (o_type_level o) (o_format o)
      (o_roi o) (o_crop o) (o_scale o) (o_position o) (o_channels o)
      (o_shadow o) (o_semitransparency o) !! k.
Proof.
  intros Hk. rewrite !not_elem_of_cons in Hk.
  destruct Hk as (H1 & H2 & H3 & H4 & _).
  unfold request_of, mk_request. cbn [req_data].
  destruct (background_of (o_bg_type o) (o_bg o)), e;
    cbn [add_background form_data];
    rewrite ?lookup_insert_ne by congruence; reflexivity.
Qed.

Lemma request_data_dom e self img o w :
  dom (req_data (request_of e self img o w))
  = common_fields ∪ added_fields e (background_of (o_bg_type o) (o_bg o)).
Proof.
  unfold request_of, mk_request. cbn [req_data].
  destruct (background_of (o_bg_type o) (o_bg o)), e;
    cbn [add_background form_data added_fields source_field];
    rewrite ?dom_insert_L, common_data_dom; set_solver.
Qed.

(** X7. The form of a request has the twelve common fields, the image
    source of the URL and base64 operations, a [bg_color] or [bg_image_url]
    when that background is given, and no other field; [size], [type],
    [type_level], [format], [roi], [scale], [position] and [channels] hold
    the options as they were passed. *)
Theorem form_fields_exact os e self img o w :
  exists sent,
    posts (snd (call os e self img o w)) = posts w ++ sent
    /\ forall r, r ∈ sent ->
         dom (req_data r)
         = common_fields
           ∪ added_fields e (background_of (o_bg_type o) (o_bg o))
         /\ req_data r !! "size" = Some (VStr (o_size o))
         /\ req_data r !! "type" = Some (VStr (o_type o))
         /\ req_data r !! "type_level" = Some (VStr (o_type_level o))
         /\ req_data r !! "format" = Some (VStr (o_format o))
         /\ req_data r !! "roi" = Some (VStr (o_roi o))
         /\ req_data r !! "scale" = Some (VStr (o_scale o))
         /\ req_data r !! "position" = Some (VStr (o_position o))
         /\ req_data r !! "channels" = Some (VStr (o_channels o)).
Proof.
  destruct (call_posts os e self img o w) as (sent & Hp & Hs).
  exists sent. split; [exact Hp|]. intros r Hin.
  destruct Hs as [->| ->]; [inversion Hin|].
  apply list_elem_of_singleton in Hin. subst r.
  split; [apply request_data_dom|].
  repeat split;
    (rewrite request_data_common
       by (rewrite !not_elem_of_cons; repeat split;
           first [discriminate | apply not_elem_of_nil]));
    unfold _build_common_data; simplify_map_eq; reflexivity.
Qed.

(** ** Which error the caller sees *)

Lemma call_check_raises os e self img o w msg :
  @_check_arguments world (o_size o) (o_type o) (o_type_level o)
    (o_format o) (o_channels o) = raise (ValueError msg) ->
  call os e self img o w = (inl (ValueError msg), w).
Proof.
  intros H.
  destruct e;
    unfold call, remove_background_from_img_file,
      remove_background_from_img_url, remove_background_from_base64_img;
    rewrite H, bind_raise; reflexivity.
Qed.

(** X8. The options are checked in the order size, type, type_level,
    format, channels, and the first one outside its enumeration names the
    error, whatever else is wrong with the call; the URL and base64
    operations ask for a way to consume the result only once all five are
    valid. *)
Theorem first_invalid_option_reported os e self img o w :
  let sizes := ["auto"; "preview"; "small"; "regular"; "medium"; "hd";
                "full"; "4k"] in
  let types := ["auto"; "person"; "product"; "animal"; "car"; "car_interior";
                "car_part"; "transportation"; "graphics"; "other"] in
  let levels := ["none"; "latest"; "1"; "2"] in
  let formats := ["jpg"; "zip"; "png"; "auto"] in
  let modes := ["rgba"; "alpha"] in
  (o_size o ∉ sizes ->
   call os e self img o w = (inl (ValueError "size argument wrong"), w))
  /\ (o_size o ∈ sizes -> o_type o ∉ types ->
      call os e self img o w = (inl (ValueError "type argument wrong"), w))
  /\ (o_size o ∈ sizes -> o_type o ∈ types -> o_type_level o ∉ levels ->
      call os e self img o w
      = (inl (ValueError "type_level argument wrong"), w))
  /\ (o_size o ∈ sizes -> o_type o ∈ types -> o_type_level o ∈ levels ->
      o_format o ∉ formats ->
      call os e self img o w = (inl (ValueError "format argument wrong"), w))
  /\ (o_size o ∈ sizes -> o_type o ∈ types -> o_type_level o ∈ levels ->
      o_format o ∈ formats -> o_channels o ∉ modes ->
      call os e self img o w
      = (inl (ValueError "channels argument wrong"), w))
  /\ (o_size o ∈ sizes -> o_type o ∈ types -> o_type_level o ∈ levels ->
      o_format o ∈ formats -> o_channels o ∈ modes ->
      e <> ImgFile ->
      o_new_file_name o = None -> o_return_bytes o = false ->
      call os e self img o w
      = (inl (ValueError
                "Either provide new_file_name or set return_bytes=True"), w)).
Proof.
  cbv zeta. repeat split; intros.
  1-5: apply call_check_raises; unfold _check_arguments;
       rewrite ?bool_decide_eq_true_2 by assumption;
       rewrite bool_decide_eq_false_2 by assumption; reflexivity.
  assert (Hv : valid_options (o_size o) (o_type o) (o_type_level o)
                 (o_format o) (o_channels o)) by (repeat split; assumption).
  destruct e; [contradiction|..];
    unfold call, remove_background_from_img_url,
      remove_background_from_base64_img;
    rewrite (check_arguments_valid _ _ _ _ _ Hv), bind_ret;
    match goal with
    | Hn : o_new_file_name o = None, Hb : o_return_bytes o = false |- _ =>
        rewrite Hn, Hb
    end; reflexivity.
Qed.

(** X9. The consumption check of the URL and base64 operations only looks
    for [None]: an empty [new_file_name] with [return_bytes] false passes
    it, the request is posted, and on a response that [raise_for_status]
    accepts the call returns [None] with nothing written and nothing
    logged. *)
Theorem empty_file_name_yields_nothing os e self img o w response :
  o_new_file_name o = Some "" -> o_return_bytes o = false ->
  valid o -> inputs_readable os e img o ->
  _session self (request_of e self img o w) = Responds response ->
  ~ 400 <= status_code response < 600 ->
  fst (call os e self img o w) = inr None
  /\ posts (snd (call os e self img o w))
     = posts w ++ [request_of e self img o w]
  /\ fs (snd (call os e self img o w)) = fs w
  /\ log (snd (call os e self img o w)) = log w.
Proof.
  intros Hn Hb Hv Hr Hs He.
  assert (Hc : e <> ImgFile -> consumable o).
  { intros _. right. rewrite Hn. discriminate. }
  apply not_error_status in He.
  split; [|split; [apply call_run_posts; assumption|]].
  - destruct (call_run_out os e self img o w Hv Hc Hr) as (-> & _).
    rewrite Hn, Hb.
    rewrite (send_no_file os self _ (Some "") false _ _ Hs He eq_refl).
    reflexivity.
  - destruct (call_run_out os e self img o w Hv Hc Hr) as (_ & -> & ->).
    rewrite Hn, Hb.
    rewrite (send_no_file os self _ (Some "") false _ _ Hs He eq_refl).
    cbn [snd posted set_posts fs log].
    split; apply open_inputs_same.
Qed.

(** ** The disk and the outcome *)

(** Reading the reason does not depend on the state it is run in. *)
Lemma read_reason_pure {S} r :
  exists x,
    forall s : S,
      try_except
        (payload <- response_json r ;;
         if isinstance_dict payload && json_truthy (dict_get "errors" payload)
         then
           first <- subscript0 (dict_get "errors" payload) ;;
           title <- method_get first "title" (JStr "unknown error") ;;
           method_lower title
         else ret "unknown error")
        is_ValueError
        (fun _ => ret "unknown error") s = (x, s).
Proof.
  unfold try_except, response_json.
  destruct (json_body r) as [payload|]; [|eexists; intros; reflexivity].
  rewrite bind_ret.
  destruct (isinstance_dict payload && json_truthy (dict_get "errors" payload));
    [|eexists; intros; reflexivity].
  destruct (dict_get "errors" payload) as [| | |[|c s']|[|x l]|kv];
    cbn [subscript0]; rewrite ?bind_ret, ?bind_raise;
    try (eexists; intros; reflexivity).
  destruct x as [| | | |l'|kv']; cbn [method_get];
    rewrite ?bind_ret, ?bind_raise; try (eexists; intros; reflexivity).
  destruct (default (JStr "unknown error") (dict_lookup "title" kv'));
    cbn [method_lower]; eexists; intros; reflexivity.
Qed.

Lemma output_file_outcome_host os1 os2 response name w1 w2 :
  fst (_output_file os1 response name w1)
  = fst (_output_file os2 response name w2).
Proof.
  destruct (Z.eq_dec (status_code response) 200) as [E|E].
  - rewrite !(output_file_ok _ _ _ _ E). reflexivity.
  - unfold _output_file.
    destruct (Z.eqb_spec (status_code response) codes_ok) as [E'|_];
      [contradiction|].
    cbv zeta. rewrite !bind_run.
    destruct (read_reason_pure (S := world) response) as (x & Hx).
    rewrite !Hx. destruct x; reflexivity.
Qed.

Lemma send_outcome_host os1 os2 self r nfn rb w :
  fst (send_and_handle os1 self r nfn rb w)
  = fst (send_and_handle os2 self r nfn rb w).
Proof.
  destruct (_session self r) as [msg|response] eqn:Hs.
  { rewrite !(send_raises _ _ _ _ _ _ _ Hs). reflexivity. }
  destruct (is_error_status response) eqn:He.
  { rewrite !(send_http_error _ _ _ _ _ _ _ Hs He). reflexivity. }
  destruct (truthy_str nfn) eqn:Hn.
  - destruct nfn as [name|]; [|discriminate]. unfold truthy_str in Hn.
    case_bool_decide; [discriminate|].
    rewrite !(send_file _ _ _ _ _ _ _ Hs He) by assumption. cbn [fst].
    rewrite (output_file_outcome_host os1 os2 response name
               (posted r w) (posted r w)).
    reflexivity.
  - rewrite !(send_no_file _ _ _ _ _ _ _ Hs He Hn). reflexivity.
Qed.

(** X10. What the caller gets, the value or the exception, does not depend
    on the disk: on two hosts that open the same files for reading a call
    ends the same way and posts the same requests, whether the output file
    can be written or not. *)
Theorem write_failure_unseen os1 os2 e self img o w :
  (forall p, readable os1 p = readable os2 p) ->
  fst (call os1 e self img o w) = fst (call os2 e self img o w)
  /\ posts (snd (call os1 e self img o w))
     = posts (snd (call os2 e self img o w)).
Proof.
  intros Hsame.
  assert (Hr : inputs_readable os1 e img o <-> inputs_readable os2 e img o).
  { unfold inputs_readable. rewrite Hsame.
    split; intros [Hi Hb]; (split; [exact Hi|]); intros p Hp;
      [rewrite <- Hsame | rewrite Hsame]; apply Hb; exact Hp. }
  destruct (call_cases os1 e img o) as [H|[(Hv & Hc & Hn)|(Hv & Hc & Hi)]].
  - destruct (valid_dec o) as [Hv|Hv].
    + destruct H as [H|[He Hc]]; [contradiction|].
      assert (Hchk : negb (o_return_bytes o)
                     && bool_decide (o_new_file_name o = None) = true).
      { unfold consumable in Hc. destruct (o_return_bytes o); [tauto|].
        destruct (o_new_file_name o);
          [exfalso; apply Hc; right; discriminate|].
        reflexivity. }
      destruct e; [contradiction|..];
        unfold call, remove_background_from_img_url,
          remove_background_from_base64_img;
        rewrite !(check_arguments_valid _ _ _ _ _ Hv), Hchk;
        split; reflexivity.
    + destruct (check_arguments_invalid (S := world) _ _ _ _ _ Hv)
        as (msg & Hmsg & _).
      rewrite !(call_check_raises _ _ _ _ _ _ _ Hmsg). split; reflexivity.
  - destruct e.
    + rewrite !(file_call _ _ _ _ _ Hv), <- Hsame.
      destruct (readable os1 img) eqn:Hi; [|split; reflexivity].
      destruct (background_of (o_bg_type o) (o_bg o)) as [p|c|u|] eqn:Hb.
      2-4: exfalso; apply Hn; split;
           [intros _; exact Hi | intros p Hp; rewrite Hb in Hp; discriminate].
      rewrite <- Hsame. destruct (readable os1 p) eqn:Hp; [|split; reflexivity].
      exfalso. apply Hn. split; [intros _; exact Hi|].
      intros p' Hp'. rewrite Hb in Hp'. injection Hp' as <-. exact Hp.
    + rewrite !form_call by (try apply Hc; discriminate || assumption).
      destruct (background_of (o_bg_type o) (o_bg o)) as [p|c|u|] eqn:Hb.
      2-4: exfalso; apply Hn; split;
           [discriminate | intros p Hp; rewrite Hb in Hp; discriminate].
      rewrite <- Hsame. destruct (readable os1 p) eqn:Hp; [|split; reflexivity].
      exfalso. apply Hn. split; [discriminate|].
      intros p' Hp'. rewrite Hb in Hp'. injection Hp' as <-. exact Hp.
    + rewrite !form_call by (try apply Hc; discriminate || assumption).
      destruct (background_of (o_bg_type o) (o_bg o)) as [p|c|u|] eqn:Hb.
      2-4: exfalso; apply Hn; split;
           [discriminate | intros p Hp; rewrite Hb in Hp; discriminate].
      rewrite <- Hsame. destruct (readable os1 p) eqn:Hp; [|split; reflexivity].
      exfalso. apply Hn. split; [discriminate|].
      intros p' Hp'. rewrite Hb in Hp'. injection Hp' as <-. exact Hp.
  - pose proof (proj1 Hr Hi) as Hi2.
    rewrite !call_run_posts by assumption.
    split; [|reflexivity].
    destruct (call_run_out os1 e self img o w Hv Hc Hi) as (-> & _).
    destruct (call_run_out os2 e self img o w Hv Hc Hi2) as (-> & _).
    apply send_outcome_host.
Qed.

(** ** The error branch of [_output_file] *)

(** X11. For a response with a status other than 200, [_output_file] logs
    one record with the destination, a reason and the status, and returns;
    nothing else changes. The reason is "unknown error" when the body is not
    JSON, is not an object, has no errors, or has a first error without
    title; when the body has the documented shape and the title of its
    first error is a string of ASCII characters, it is that title in lower
    case, whatever follows that error. *)
Theorem reason_logged os response name reason w :
  status_code response <> 200 ->
  reads_reason response reason ->
  exists logged,
    _output_file os response name w
    = (inr tt,
       {| fs := fs w; handles := handles w;
          log := log w ++ [save_error name logged (status_code response)];
          posts := posts w |})
    /\ (ascii_title response -> logged = reason).
Proof.
  intros Hs Hr. exists reason.
  split; [apply output_file_error; assumption | intros _; reflexivity].
Qed.

Ltac raised_here :=
  eexists; split;
  [ intros; reflexivity
  | first [ discriminate
          | intros ? [= <-]; split; [eauto | reflexivity] ] ].

Lemma read_reason_raises {S} r :
  exists x,
    (forall s : S,
       try_except
         (payload <- response_json r ;;
          if isinstance_dict payload
             && json_truthy (dict_get "errors" payload)
          then
            first <- subscript0 (dict_get "errors" payload) ;;
            title <- method_get first "title" (JStr "unknown error") ;;
            method_lower title
          else ret "unknown error")
         is_ValueError
         (fun _ => ret "unknown error") s = (x, s))
    /\ forall e, x = inl e ->
         (exists m, e = AttributeError m \/ e = KeyError m \/ e = TypeError m)
         /\ (isinstance_dict (default JNull (json_body r))
             && json_truthy (dict_get "errors" (default JNull (json_body r))))
            = true.
Proof.
  unfold try_except, response_json.
  destruct (json_body r) as [payload|]; [|raised_here].
  rewrite bind_ret. cbn [default from_option id].
  destruct (isinstance_dict payload && json_truthy (dict_get "errors" payload))
    eqn:Hshape; [|raised_here].
  destruct (dict_get "errors" payload) as [| | |[|c s']|[|x l]|kv];
    cbn [subscript0]; rewrite ?bind_ret, ?bind_raise; try raised_here;
    try (rewrite andb_false_r in Hshape; discriminate).
  destruct x as [| | | |l'|kv']; cbn [method_get];
    rewrite ?bind_ret, ?bind_raise; try raised_here.
  destruct (default (JStr "unknown error") (dict_lookup "title" kv'));
    cbn [method_lower]; raised_here.
Qed.

(** X12. [_output_file] raises only on a response with a status other than
    200 whose body is a JSON object with a truthy [errors] that is not of
    the documented shape; the exception is then an [AttributeError], a
    [KeyError] or a [TypeError], and nothing has been logged or written. *)
Theorem output_file_raises_only os response name w e :
  fst (_output_file os response name w) = inl e ->
  status_code response <> 200
  /\ snd (_output_file os response name w) = w
  /\ (exists m, e = AttributeError m \/ e = KeyError m \/ e = TypeError m)
  /\ exists kv,
       json_body response = Some (JObj kv)
       /\ json_truthy (default JNull (dict_lookup "errors" kv)) = true
       /\ ~ exists reason, reads_reason response reason.
Proof.
  intros Hraise.
  destruct (Z.eq_dec (status_code response) 200) as [E|E].
  { rewrite (output_file_ok _ _ _ _ E) in Hraise. discriminate. }
  split; [exact E|].
  assert (Hno : ~ exists reason, reads_reason response reason).
  { intros (reason & Hr).
    rewrite (output_file_error _ _ _ _ _ E Hr) in Hraise. discriminate. }
  revert Hraise. unfold _output_file.
  destruct (Z.eqb_spec (status_code response) codes_ok) as [E'|_];
    [contradiction|].
  cbv zeta. rewrite bind_run.
  destruct (read_reason_raises (S := world) response) as (x & Hx & Hcls).
  rewrite Hx. destruct x as [e'|reason]; [|discriminate].
  cbn [fst snd]. intros [= <-].
  destruct (Hcls e' eq_refl) as (Hm & Hshape).
  split; [reflexivity|]. split; [exact Hm|].
  destruct (json_body response) as [[| | | | |kv]|]; try discriminate Hshape.
  exists kv. split; [reflexivity|]. split; [|exact Hno].
  cbn [default from_option id isinstance_dict dict_get andb] in Hshape.
  exact Hshape.
Qed.

(** ** The constructor *)

Lemma configure_logging_run os file lg :
  configure_logging os file lg =
  match root_handlers lg, disk os file with
  | [], OpenFails => (inl (OSError file), lg)
  | [], _ =>
      (inr tt,
       {| root_handlers := [{| lh_file := Some file; lh_level := NOTSET |}];
          root_level := ERROR |})
  | _ :: _, OpenFails => (inr tt, lg)
  | _ :: _, _ =>
      (inr tt,
       {| root_handlers :=
            root_handlers lg ++ [{| lh_file := Some file; lh_level := ERROR |}];
          root_level := root_level lg |})
  end.
Proof.
  unfold configure_logging, basicConfig. rewrite bind_run. unfold gets.
  destruct (root_handlers lg) as [|h hs] eqn:Hh.
  - rewrite bind_run. rewrite Hh. unfold FileHandler.
    destruct (disk os file); cbn; rewrite ?Hh; reflexivity.
  - unfold try_except, FileHandler.
    destruct (disk os file); cbn; rewrite ?Hh; reflexivity.
Qed.

(** X13. In a process that has configured logging, the constructor never
    raises and keeps that configuration: the handlers that were there stay,
    in their order, and the level of the root logger is not touched. One
    file handler at level ERROR is added after them when the log file
    opens, and none when it does not. *)
Theorem constructor_keeps_host_logging os api_key file timeout session lg :
  root_handlers lg <> [] ->
  exists added,
    new_client os api_key file timeout session lg
    = (inr (__init__ api_key timeout session),
       {| root_handlers := root_handlers lg ++ added;
          root_level := root_level lg |})
    /\ (disk os file = OpenFails -> added = [])
    /\ (disk os file <> OpenFails ->
        added = [{| lh_file := Some file; lh_level := ERROR |}]).
Proof.
  intros Hne. unfold new_client. rewrite bind_run, configure_logging_run.
  destruct (root_handlers lg) as [|h hs] eqn:Hh; [contradiction|].
  destruct (disk os file) eqn:Hd.
  - eexists. split; [reflexivity|]. split; [discriminate | reflexivity].
  - exists []. rewrite app_nil_r, <- Hh. destruct lg.
    split; [reflexivity|]. split; [reflexivity | contradiction].
  - eexists. split; [reflexivity|]. split; [discriminate | reflexivity].
Qed.


Lemma handlers_on_app file (hs : list log_handler) lvl :
  List.filter (fun h => bool_decide (lh_file h = Some file))
    (hs ++ [{| lh_file := Some file; lh_level := lvl |}])
  = List.filter (fun h => bool_decide (lh_file h = Some file)) hs
    ++ [{| lh_file := Some file; lh_level := lvl |}].
Proof.
  rewrite List.filter_app. cbn [List.filter lh_file].
  rewrite bool_decide_eq_true_2 by reflexivity. reflexivity.
Qed.

(** X15. Every construction attaches one more handler to the log file: after
    [n] clients have been built with a log file that opens, the root logger
    has [n] more handlers on that file than before, so that each error is
    appended to it that many times. *)
Theorem handlers_accumulate os file n :
  disk os file <> OpenFails ->
  forall lg,
    fst (new_clients os file n lg) = inr tt
    /\ length (handlers_on file (snd (new_clients os file n lg)))
       = (n + length (handlers_on file lg))%nat.
Proof.
  intros Hd. induction n as [|n IH]; intros lg; [split; reflexivity|].
  cbn [new_clients]. unfold new_client.
  rewrite !bind_run, configure_logging_run.
  destruct (root_handlers lg) as [|h hs] eqn:Hh;
    destruct (disk os file) eqn:Hdisk; try contradiction;
    unfold ret at 1 2; cbv beta iota;
    match goal with
    | |- context [new_clients os file n ?lg'] =>
        destruct (IH lg') as (Hr & Hl)
    end;
    (split; [exact Hr|]); rewrite Hl; unfold handlers_on;
    cbn [root_handlers]; rewrite ?Hh, ?handlers_on_app, ?length_app;
    cbn [List.filter lh_file length];
    rewrite ?bool_decide_eq_true_2 by reflexivity; cbn [length]; lia.
Qed.

(** X16. Only the status 200 counts as success. A response with any other
    status that [raise_for_status] accepts, a 2xx one such as 201 or 204
    included, is logged as an error under a non-empty [new_file_name] and
    not written, while the call still returns, with the content when
    [return_bytes] is set. The reason logged is the one read from the body
    when its title, if it has one, is a string of ASCII characters. *)
Theorem non_ok_status_is_logged os e self img o w response name reason :
  valid o -> (e <> ImgFile -> consumable o) ->
  inputs_readable os e img o ->
  _session self (request_of e self img o w) = Responds response ->
  status_code response <> 200 ->
  ~ 400 <= status_code response < 600 ->
  o_new_file_name o = Some name -> name <> "" ->
  reads_reason response reason ->
  fst (call os e self img o w)
  = inr (if o_return_bytes o then Some (content response) else None)
  /\ (exists logged,
        log (snd (call os e self img o w))
        = log w ++ [save_error name logged (status_code response)]
        /\ (ascii_title response -> logged = reason))
  /\ fs (snd (call os e self img o w)) = fs w.
Proof.
  intros Hv Hc Hr Hs H2 He Hn Hne Hrd.
  destruct (call_run_out os e self img o w Hv Hc Hr) as (-> & -> & ->).
  destruct (open_inputs_same e img (background_of (o_bg_type o) (o_bg o)) w)
    as (_ & Hl & Hf).
  apply not_error_status in He.
  rewrite Hn, (send_file _ _ _ _ _ _ _ Hs He Hne).
  rewrite (output_file_error os response name reason) by assumption.
  cbn [fst snd log fs].
  split; [reflexivity|]. split; [|cbn [posted set_posts fs]; exact Hf].
  exists reason. cbn [posted set_posts log]. rewrite Hl.
  split; [reflexivity | intros _; reflexivity].
Qed.

(** ** Instances of the further properties *)

Lemma only_named_file_written_witness :
  o_new_file_name defaults <> Some "other.png"
  /\ fs (snd (call open_host ImgUrl (client_answering (binary_response 200))
                "https://example.org/cat.png" defaults empty_world))
       !! "other.png"
     = fs empty_world !! "other.png".
Proof.
  split; [discriminate|].
  apply (proj1 (only_named_file_written open_host ImgUrl
                  (client_answering (binary_response 200))
                  "https://example.org/cat.png" defaults empty_world)).
  discriminate.
Defined.

Lemma no_write_without_ok_witness :
  (forall r response,
     _session (client_answering (binary_response 201)) r = Responds response ->
     status_code response <> 200)
  /\ fs (snd (call open_host ImgFile (client_answering (binary_response 201))
                "cat.png" defaults empty_world))
     = fs empty_world.
Proof.
  assert (H : forall r response,
             _session (client_answering (binary_response 201)) r
             = Responds response ->
             status_code response <> 200).
  { intros r response [= <-]. discriminate. }
  split; [exact H|].
  apply (no_write_without_ok open_host ImgFile
           (client_answering (binary_response 201)) "cat.png" defaults
           empty_world H).
Defined.

Lemma transport_failure_propagates_witness :
  valid defaults
  /\ inputs_readable open_host ImgFile "cat.png" defaults
  /\ fst (call open_host ImgFile client_offline "cat.png" defaults
            empty_world)
     = inl (RequestException "timed out")
  /\ log (snd (call open_host ImgFile client_offline "cat.png" defaults
                 empty_world))
     = log empty_world.
Proof.
  split; [exact valid_defaults|]. split; [apply open_host_reads|].
  destruct (transport_failure_propagates open_host ImgFile client_offline
              "cat.png" defaults empty_world "timed out" valid_defaults
              (fun _ => consumable_defaults) (open_host_reads _ _ _) eq_refl)
    as (H1 & _ & H3 & _).
  split; assumption.
Defined.

Lemma input_open_failure_witness :
  valid defaults
  /\ readable no_read_host "cat.png" = false
  /\ call no_read_host ImgFile (client_answering (binary_response 200))
       "cat.png" defaults empty_world
     = (inl (OSError "cat.png"), empty_world).
Proof.
  split; [exact valid_defaults|]. split; [reflexivity|].
  apply (proj1 (input_open_failure no_read_host ImgFile
                  (client_answering (binary_response 200)) "cat.png" defaults
                  empty_world valid_defaults (fun _ => consumable_defaults)));
    reflexivity.
Defined.

Lemma request_envelope_witness :
  exists sent,
    posts (snd (call open_host ImgUrl
                  (__init__ "secret" None
                     (fun _ => Responds (binary_response 200)))
                  "https://example.org/cat.png" defaults empty_world))
    = posts empty_world ++ sent
    /\ length sent = 1%nat
    /\ forall r, r ∈ sent ->
         req_headers r = {["X-Api-Key" := "secret"]} /\ req_timeout r = 30.
Proof.
  destruct (request_envelope open_host ImgUrl "secret" None
              (fun _ => Responds (binary_response 200))
              "https://example.org/cat.png" defaults empty_world)
    as (sent & Hp & Hr).
  exists sent. split; [exact Hp|]. split.
  - apply (f_equal (@length Request)) in Hp. vm_compute in Hp.
    symmetry. exact Hp.
  - intros r Hin. destruct (Hr r Hin) as (_ & Hh & _ & Ht).
    split; assumption.
Defined.

Lemma one_image_source_witness :
  exists sent,
    posts (snd (call open_host Base64Img
                  (client_answering (binary_response 200)) "aGVsbG8="
                  defaults empty_world))
    = posts empty_world ++ sent
    /\ forall r, r ∈ sent ->
         image_fields r = ["image_file_b64"]
         /\ req_data r !! "image_file_b64" = Some (VStr "aGVsbG8=").
Proof.
  destruct (one_image_source open_host Base64Img
              (client_answering (binary_response 200)) "aGVsbG8=" defaults
              empty_world) as (sent & Hp & Hr).
  exists sent. split; [exact Hp|].
  intros r Hin. destruct (Hr r Hin) as (H1 & H2 & _).
  split; [exact H1|]. apply H2. discriminate.
Defined.

Lemma form_fields_exact_witness :
  exists sent,
    posts (snd (call open_host ImgUrl
                  (client_answering (binary_response 200))
                  "https://example.org/cat.png"
                  (with_background (Some "color") (Some "81d4fa") defaults)
                  empty_world))
    = posts empty_world ++ sent
    /\ forall r, r ∈ sent ->
         dom (req_data r) = common_fields ∪ {["image_url"; "bg_color"]}
         /\ req_data r !! "size" = Some (VStr "regular").
Proof.
  destruct (form_fields_exact open_host ImgUrl
              (client_answering (binary_response 200))
              "https://example.org/cat.png"
              (with_background (Some "color") (Some "81d4fa") defaults)
              empty_world) as (sent & Hp & Hr).
  exists sent. split; [exact Hp|].
  intros r Hin. destruct (Hr r Hin) as (H1 & H2 & _).
  split; [|exact H2]. rewrite H1. reflexivity.
Defined.

Lemma first_invalid_option_reported_witness :
  (o_size (with_size "huge" defaults)
     ∉ ["auto"; "preview"; "small"; "regular"; "medium"; "hd"; "full"; "4k"])
  /\ call no_read_host ImgUrl client_offline "https://example.org/cat.png"
       (with_output None false (with_size "huge" defaults)) empty_world
     = (inl (ValueError "size argument wrong"), empty_world).
Proof.
  assert (H : o_size (with_size "huge" defaults)
                ∉ ["auto"; "preview"; "small"; "regular"; "medium"; "hd";
                   "full"; "4k"]).
  { cbn. rewrite !elem_of_cons, elem_of_nil. intros H.
    repeat (destruct H as [H|H]; [discriminate|]). exact H. }
  split; [exact H|].
  apply (proj1 (first_invalid_option_reported no_read_host ImgUrl
                  client_offline "https://example.org/cat.png"
                  (with_output None false (with_size "huge" defaults))
                  empty_world)).
  exact H.
Defined.

Lemma empty_file_name_yields_nothing_witness :
  o_new_file_name (with_output (Some "") false defaults) = Some ""
  /\ valid (with_output (Some "") false defaults)
  /\ fst (call open_host ImgUrl (client_answering (binary_response 200))
            "https://example.org/cat.png"
            (with_output (Some "") false defaults) empty_world)
     = inr None
  /\ fs (snd (call open_host ImgUrl
                (client_answering (binary_response 200))
                "https://example.org/cat.png"
                (with_output (Some "") false defaults) empty_world))
     = fs empty_world.
Proof.
  split; [reflexivity|]. split; [exact valid_defaults|].
  destruct (empty_file_name_yields_nothing open_host ImgUrl
              (client_answering (binary_response 200))
              "https://example.org/cat.png"
              (with_output (Some "") false defaults) empty_world
              (binary_response 200) eq_refl eq_refl valid_defaults
              (open_host_reads _ _ _) eq_refl ltac:(cbn; lia))
    as (H1 & _ & H3 & _).
  split; assumption.
Defined.

Lemma write_failure_unseen_witness :
  (forall p, readable open_host p = readable read_only_host p)
  /\ fst (call open_host ImgFile (client_answering (binary_response 200))
            "cat.png" (with_output (Some "out.png") true defaults)
            empty_world)
     = fst (call read_only_host ImgFile
              (client_answering (binary_response 200))
              "cat.png" (with_output (Some "out.png") true defaults)
              empty_world).
Proof.
  split; [reflexivity|].
  apply (write_failure_unseen open_host read_only_host ImgFile
           (client_answering (binary_response 200)) "cat.png"
           (with_output (Some "out.png") true defaults) empty_world).
  reflexivity.
Defined.

Lemma reason_logged_witness :
  status_code (json_response 400 titled_errors) <> 200
  /\ reads_reason (json_response 400 titled_errors) "foo bar"
  /\ ascii_title (json_response 400 titled_errors)
  /\ _output_file open_host (json_response 400 titled_errors) "no-bg.png"
       empty_world
     = (inr tt,
        {| fs := fs empty_world; handles := handles empty_world;
           log := log empty_world ++ [save_error "no-bg.png" "foo bar" 400];
           posts := posts empty_world |}).
Proof.
  assert (Hs : status_code (json_response 400 titled_errors) <> 200)
    by discriminate.
  assert (Hr : reads_reason (json_response 400 titled_errors) "foo bar").
  { apply (reason_title (json_response 400 titled_errors)
             [("errors", JArr [JObj [("title", JStr "Foo Bar")]])]
             [("title", JStr "Foo Bar")] [] "Foo Bar"); reflexivity. }
  assert (Ha : ascii_title (json_response 400 titled_errors)).
  { intros t [= <-]. reflexivity. }
  split; [exact Hs|]. split; [exact Hr|]. split; [exact Ha|].
  destruct (reason_logged open_host (json_response 400 titled_errors)
              "no-bg.png" "foo bar" empty_world Hs Hr)
    as (logged & Heq & Hl).
  rewrite Heq, (Hl Ha). reflexivity.
Defined.

Lemma output_file_raises_only_witness :
  fst (_output_file open_host (json_response 300 untitled_errors)
         "no-bg.png" empty_world)
  = inl (AttributeError "get")
  /\ snd (_output_file open_host (json_response 300 untitled_errors)
            "no-bg.png" empty_world)
     = empty_world.
Proof.
  assert (H : fst (_output_file open_host (json_response 300 untitled_errors)
                     "no-bg.png" empty_world)
              = inl (AttributeError "get")) by reflexivity.
  split; [exact H|].
  apply (output_file_raises_only open_host (json_response 300 untitled_errors)
           "no-bg.png" empty_world (AttributeError "get") H).
Defined.

Lemma constructor_keeps_host_logging_witness :
  root_handlers console_logging <> []
  /\ exists added,
       new_client closed_log_host "secret" "error.log" None
         (fun _ => Raises "timed out") console_logging
       = (inr (__init__ "secret" None (fun _ => Raises "timed out")),
          {| root_handlers := root_handlers console_logging ++ added;
             root_level := root_level console_logging |}).
Proof.
  assert (H : root_handlers console_logging <> []) by discriminate.
  split; [exact H|].
  destruct (constructor_keeps_host_logging closed_log_host "secret"
              "error.log" None (fun _ => Raises "timed out") console_logging H)
    as (added & Heq & _).
  exists added. exact Heq.
Defined.


Lemma handlers_accumulate_witness :
  disk open_host "error.log" <> OpenFails
  /\ length (handlers_on "error.log"
               (snd (new_clients open_host "error.log" 3 fresh_logging)))
     = 3%nat.
Proof.
  assert (H : disk open_host "error.log" <> OpenFails) by discriminate.
  split; [exact H|].
  apply (proj2 (handlers_accumulate open_host "error.log" 3 H fresh_logging)).
Defined.

Lemma non_ok_status_is_logged_witness :
  valid (with_output (Some "out.png") true defaults)
  /\ status_code (binary_response 204) <> 200
  /\ fst (call open_host ImgUrl (client_answering (binary_response 204))
            "https://example.org/cat.png"
            (with_output (Some "out.png") true defaults) empty_world)
     = inr (Some sample_content)
  /\ log (snd (call open_host ImgUrl (client_answering (binary_response 204))
                 "https://example.org/cat.png"
                 (with_output (Some "out.png") true defaults) empty_world))
     = log empty_world ++ [save_error "out.png" "unknown error" 204]
  /\ fs (snd (call open_host ImgUrl (client_answering (binary_response 204))
                "https://example.org/cat.png"
                (with_output (Some "out.png") true defaults) empty_world))
     = fs empty_world.
Proof.
  split; [exact valid_defaults|]. split; [discriminate|].
  destruct (non_ok_status_is_logged open_host ImgUrl
              (client_answering (binary_response 204))
              "https://example.org/cat.png"
              (with_output (Some "out.png") true defaults) empty_world
              (binary_response 204) "out.png" "unknown error" valid_defaults
              (fun _ => or_introl eq_refl) (open_host_reads _ _ _) eq_refl
              ltac:(discriminate) ltac:(cbn; lia) eq_refl
              ltac:(discriminate)
              (reason_not_json (binary_response 204) eq_refl))
    as (Hres & (logged & Hlog & Hascii) & Hfs).
  split; [exact Hres|]. split; [|exact Hfs].
  rewrite Hlog, Hascii; [reflexivity|].
  intros t Ht. discriminate Ht.
Defined.
